(** * git-mcp-server: the [git_reword] and [git_stash] tools

    A shallow embedding of the reword logic (both revisions found in the
    repository), of the tool registration modules, and of the stash
    dispatcher, together with the properties the specification states
    about them.

    JavaScript strings are modelled as [string], the UTF-8 bytes of the
    text: white space is JavaScript's (the ASCII blanks and line ends
    and the Unicode spaces, in their UTF-8 form), letter case is the
    ASCII one.  Asynchronous code is
    modelled as a program tree whose nodes are the calls the code makes
    to its environment (the shell behind [child_process.exec], the file
    system, the clock, the logger); [await] is sequencing. *)

From Stdlib Require Import ZArith Ascii String.
From stdpp Require Import base option list strings gmap pretty.

Local Open Scope string_scope.
Local Open Scope Z_scope.

(** ** JavaScript strings *)

Module Js.

(** The double quote character; string literals below never contain it. *)
Definition dq : string := String "034"%char "".
Definition nl : string := String "010"%char "".

Definition quoted (s : string) : string := dq +:+ s +:+ dq.

(** [s.length === 0]: the falsy string. *)
Definition is_empty (s : string) : bool :=
  match s with "" => true | String _ _ => false end.

(** Truthiness of a [string | undefined] value. *)
Definition truthy (v : option string) : bool :=
  match v with
  | Some s => negb (is_empty s)
  | None => false
  end.

(** [a || b] where [a : string | undefined] and [b : string]. *)
Definition or (a : option string) (b : string) : string :=
  match a with
  | Some s => if is_empty s then b else s
  | None => b
  end.

Definition lower (c : ascii) : ascii :=
  let n := N_of_ascii c in
  if ((65 <=? n) && (n <=? 90))%N then ascii_of_N (n + 32) else c.

(** [String.prototype.toLowerCase] on the ASCII letters; bytes outside
    ASCII are kept as they are. *)
Fixpoint toLowerCase (s : string) : string :=
  match s with
  | "" => ""
  | String c s' => String (lower c) (toLowerCase s')
  end.

Fixpoint startsWith (s needle : string) {struct needle} : bool :=
  match needle, s with
  | "", _ => true
  | String _ _, "" => false
  | String a n', String b s' => if decide (a = b) then startsWith s' n' else false
  end.

(** [String.prototype.includes]. *)
Fixpoint includes (s needle : string) : bool :=
  if startsWith s needle then true
  else match s with
       | "" => false
       | String _ s' => includes s' needle
       end.

(** White space of two bytes: U+00A0 (no-break space). *)
Definition is_space2 (a b : ascii) : bool :=
  match a, b with
  | "194", "160" => true
  | _, _ => false
  end%char.

(** White space of three bytes: U+1680, U+2000 to U+200A, U+2028,
    U+2029, U+202F, U+205F, U+3000 and U+FEFF. *)
Definition is_space3 (a b c : ascii) : bool :=
  let n := N_of_ascii c in
  match a, b with
  | "225", "154" => (n =? 128)%N
  | "226", "128" =>
      ((128 <=? n) && (n <=? 138) || (n =? 168) || (n =? 169) || (n =? 175))%N
  | "226", "129" => (n =? 159)%N
  | "227", "128" => (n =? 128)%N
  | "239", "187" => (n =? 191)%N
  | _, _ => false
  end%char.

(** [String.prototype.trimStart]: drops the white-space characters at
    the start, of one, two or three bytes each. *)
Fixpoint trimStart (s : string) : string :=
  match s with
  | "" => ""
  | String c s1 =>
      if Ascii.is_space c then trimStart s1
      else
        match s1 with
        | "" => s
        | String c2 s2 =>
            if is_space2 c c2 then trimStart s2
            else
              match s2 with
              | "" => s
              | String c3 s3 => if is_space3 c c2 c3 then trimStart s3 else s
              end
        end
  end.

(** [String.prototype.trimEnd]: drops the longest end of the text that
    is white space throughout. *)
Fixpoint trimEnd (s : string) : string :=
  match s with
  | "" => ""
  | String c s' => if is_empty (trimStart s) then "" else String c (trimEnd s')
  end.

(** [String.prototype.trim]. *)
Definition trim (s : string) : string := trimEnd (trimStart s).

(** [s.replace(/c/g, by)] for a one-character pattern. *)
Fixpoint replaceAll (c : ascii) (by_ : string) (s : string) : string :=
  match s with
  | "" => ""
  | String a s' =>
      if decide (a = c) then by_ +:+ replaceAll c by_ s'
      else String a (replaceAll c by_ s')
  end.

(** [s.split(sep)] for a one-character separator: never the empty list. *)
Fixpoint split (sep : ascii) (s : string) : list string :=
  match s with
  | "" => [""]
  | String a s' =>
      if decide (a = sep) then "" :: split sep s'
      else match split sep s' with
           | [] => [String a ""]
           | w :: ws => String a w :: ws
           end
  end.

(** [parts.join(sep)]. *)
Fixpoint join (sep : string) (parts : list string) : string :=
  match parts with
  | [] => ""
  | [w] => w
  | w :: ws => w +:+ sep +:+ join sep ws
  end.

End Js.

(** ** Errors and results *)

(** The members of [BaseErrorCode] the reword logic raises. *)
Inductive BaseErrorCode : Type :=
| NOT_FOUND
| VALIDATION_ERROR
| INTERNAL_ERROR.

#[global] Instance BaseErrorCode_eq_dec : EqDecision BaseErrorCode.
Proof. solve_decision. Defined.

(** A thrown JavaScript value.  [err_code] is set on an [McpError] and
    absent on a plain [Error]; [err_stderr] and [err_stdout] are the
    properties [child_process.exec] attaches to its rejection. *)
Record JsError : Type := mkJsError {
  err_code : option BaseErrorCode;
  err_message : string;
  err_stderr : option string;
  err_stdout : option string
}.

(** [new McpError(code, message, details)]. *)
Definition McpError (code : BaseErrorCode) (message : string) : JsError :=
  {| err_code := Some code; err_message := message;
     err_stderr := None; err_stdout := None |}.

(** [new Error(message)]. *)
Definition PlainError (message : string) : JsError :=
  {| err_code := None; err_message := message;
     err_stderr := None; err_stdout := None |}.

(** What the promise returned by [execAsync] settles to. *)
Inductive ExecResult : Type :=
| Resolved (stdout stderr : string)
| Rejected (error : JsError).

Inductive LogLevel : Type := LDebug | LInfo | LWarning | LError.

(** ** Programs: the calls an operation makes, in order *)

Inductive Prog (A : Type) : Type :=
| Ret (a : A)
| Throw (error : JsError)
| Exec (command : string) (k : ExecResult -> Prog A)
| WriteFile (file data : string) (k : option JsError -> Prog A)
| Unlink (file : string) (k : option JsError -> Prog A)
| DateNow (k : Z -> Prog A)
| Log (level : LogLevel) (text : string) (k : Prog A).

Arguments Ret {A} a.
Arguments Throw {A} error.
Arguments Exec {A} command k.
Arguments WriteFile {A} file data k.
Arguments Unlink {A} file k.
Arguments DateNow {A} k.
Arguments Log {A} level text k.

Fixpoint bind {A B} (p : Prog A) (f : A -> Prog B) : Prog B :=
  match p with
  | Ret a => f a
  | Throw e => Throw e
  | Exec c k => Exec c (fun r => bind (k r) f)
  | WriteFile p d k => WriteFile p d (fun r => bind (k r) f)
  | Unlink p k => Unlink p (fun r => bind (k r) f)
  | DateNow k => DateNow (fun t => bind (k t) f)
  | Log l m k => Log l m (bind k f)
  end.

(** [try { p } catch (error) { h error }]. *)
Fixpoint try_catch {A} (p : Prog A) (h : JsError -> Prog A) : Prog A :=
  match p with
  | Ret a => Ret a
  | Throw e => h e
  | Exec c k => Exec c (fun r => try_catch (k r) h)
  | WriteFile p d k => WriteFile p d (fun r => try_catch (k r) h)
  | Unlink p k => Unlink p (fun r => try_catch (k r) h)
  | DateNow k => DateNow (fun t => try_catch (k t) h)
  | Log l m k => Log l m (try_catch k h)
  end.

#[global] Instance Prog_ret : MRet Prog := @Ret.
#[global] Instance Prog_bind : MBind Prog := fun A B f p => bind p f.

(** [await execAsync(command)]: resolves to [{stdout, stderr}] or throws. *)
Definition execAsync (command : string) : Prog (string * string) :=
  Exec command (fun r =>
    match r with
    | Resolved out err => Ret (out, err)
    | Rejected e => Throw e
    end).

(** [await fs.writeFile(file, data)]. *)
Definition fs_writeFile (file data : string) : Prog unit :=
  WriteFile file data (fun r =>
    match r with
    | None => Ret tt
    | Some e => Throw e
    end).

(** [await fs.unlink(file).catch(() => {})]. *)
Definition fs_unlink_quiet (file : string) : Prog unit :=
  Unlink file (fun _ => Ret tt).

Definition Date_now : Prog Z := DateNow Ret.

Definition logger (level : LogLevel) (text : string) : Prog unit :=
  Log level text (Ret tt).

(** ** Running a program against an environment *)

Inductive Event : Type :=
| EvExec (command : string)
| EvWriteFile (file data : string)
| EvUnlink (file : string)
| EvDateNow
| EvLog (level : LogLevel) (text : string).

(** The environment: a state [W] and what each call answers and does. *)
Record Env (W : Type) : Type := mkEnv {
  env_exec : string -> W -> ExecResult * W;
  env_writeFile : string -> string -> W -> option JsError * W;
  env_unlink : string -> W -> option JsError * W;
  env_now : W -> Z * W
}.

Arguments env_exec {W} _ _ _.
Arguments env_writeFile {W} _ _ _ _.
Arguments env_unlink {W} _ _ _.
Arguments env_now {W} _ _.

(** How a run ends: the value returned, or the error thrown. *)
Inductive Outcome (A : Type) : Type :=
| Returned (a : A)
| Thrown (error : JsError).

Arguments Returned {A} a.
Arguments Thrown {A} error.

Record Run (W A : Type) : Type := mkRun {
  outcome : Outcome A;
  final : W;
  trace : list Event
}.

Arguments mkRun {W A} _ _ _.
Arguments outcome {W A} _.
Arguments final {W A} _.
Arguments trace {W A} _.

Definition logged {W A} (ev : Event) (r : Run W A) : Run W A :=
  mkRun (outcome r) (final r) (ev :: trace r).

Fixpoint run {W A} (env : Env W) (p : Prog A) (w : W) : Run W A :=
  match p with
  | Ret a => mkRun (Returned a) w []
  | Throw e => mkRun (Thrown e) w []
  | Exec c k =>
      let '(r, w') := env_exec env c w in logged (EvExec c) (run env (k r) w')
  | WriteFile f d k =>
      let '(r, w') := env_writeFile env f d w in
      logged (EvWriteFile f d) (run env (k r) w')
  | Unlink f k =>
      let '(r, w') := env_unlink env f w in logged (EvUnlink f) (run env (k r) w')
  | DateNow k =>
      let '(t, w') := env_now env w in logged EvDateNow (run env (k t) w')
  | Log l m k => logged (EvLog l m) (run env k w)
  end.

(** The command strings handed to [exec] during a run, in order. *)
Definition commands (evs : list Event) : list string :=
  omap (fun ev => match ev with EvExec c => Some c | _ => None end) evs.

(** ** The reword tool: input, result, failure translation *)

(** The arguments of a [git_reword] call as the caller sends them. *)
Record GitRewordArgs : Type := mkArgs {
  arg_path : option string;
  arg_commitHash : option string;
  arg_newMessage : option string
}.

(** [GitRewordInput = z.infer<typeof GitRewordInputSchema>]: after
    validation [path] is always a string. *)
Record GitRewordInput : Type := mkInput {
  path : string;
  commitHash : option string;
  newMessage : string
}.

(** [z.string().min(1)] on a present value. *)
Definition min1 (s : string) : option string :=
  if Js.is_empty s then None else Some s.

(** [GitRewordInputSchema.parse]: [None] stands for the [ZodError].
    [path] is [.min(1).optional().default(".")], [commitHash] is
    [.min(1).optional()], [newMessage] is [.min(1)] and required. *)
Definition GitRewordInputSchema (raw : GitRewordArgs) : option GitRewordInput :=
  p ← match arg_path raw with
      | None => Some "."
      | Some s => min1 s
      end;
  h ← match arg_commitHash raw with
      | None => Some None
      | Some s => Some <$> min1 s
      end;
  m ← arg_newMessage raw ≫= min1;
  Some {| path := p; commitHash := h; newMessage := m |}.

Record GitRewordResult : Type := mkResult {
  success : bool;
  message : string;
  originalMessage : option string;
  newMessage' : option string;
  hash : option string;
  rebaseInstructions : option string
}.

(** The part of the request context the logic reads. *)
Record LogicContext : Type := mkContext {
  sessionId : option string;
  getWorkingDirectory : unit -> option string
}.

(** The options object of [sanitization.sanitizePath]. *)
Record PathSanitizeOptions : Type := { allowAbsolute : bool }.

(** [input.path || context.getWorkingDirectory() || "."], the argument
    handed to [sanitizePath]. *)
Definition requestedPath (input : GitRewordInput) (context : LogicContext) : string :=
  Js.or (Some (path input)) (Js.or (getWorkingDirectory context ()) ".").

(** [error.stderr || error.stdout || error.message || <empty string>]. *)
Definition errorMessageOf (error : JsError) : string :=
  Js.or (err_stderr error)
    (Js.or (err_stdout error)
       (Js.or (Some (err_message error)) "")).

(** The error the outer [catch] block throws, the same in both
    revisions of the logic. *)
Definition translateFailure (targetPath : string) (error : JsError) : JsError :=
  let errorMessage := errorMessageOf error in
  if Js.includes (Js.toLowerCase errorMessage) "not a git repository" then
    McpError NOT_FOUND ("Path is not a Git repository: " +:+ targetPath)
  else if Js.includes errorMessage "no changes" then
    McpError VALIDATION_ERROR
      "No changes to commit. Ensure there are staged changes if trying to amend, or specify a commit hash to reword a specific commit."
  else
    McpError INTERNAL_ERROR ("Failed to reword commit. Error: " +:+ errorMessage).

Definition onFailure {A} (targetPath : string) (error : JsError) : Prog A :=
  logger LError "Failed to execute git reword command";;
  Throw (translateFailure targetPath error).

(** [input.newMessage.replace(/DQ/g, '\DQ')] where DQ is the double
    quote character: in a JavaScript string literal a backslash before a
    double quote denotes the double quote itself, so the replacement
    string is the one-character string [Js.dq]. *)
Definition sanitizeMessage (newMessage : string) : string :=
  Js.replaceAll "034"%char Js.dq newMessage.

(** The command strings. *)
Definition git_C (targetPath : string) : string :=
  "git -C " +:+ Js.quoted targetPath.

Definition logMessageCommand (targetPath commitRef : string) : string :=
  git_C targetPath +:+ " log -1 --pretty=format:%B " +:+ commitRef.

Definition amendCommand (targetPath sanitizedNewMessage : string) : string :=
  git_C targetPath +:+ " commit --amend -m " +:+ Js.quoted sanitizedNewMessage.

Definition revParseParentCommand (targetPath commitRef : string) : string :=
  git_C targetPath +:+ " rev-parse " +:+ commitRef +:+ "^".

Definition confirmCommand (targetPath : string) : string :=
  git_C targetPath +:+ " log -1 --pretty=format:%H%n%B".

(** The best-effort read of the target's message. *)
Definition readOriginalMessage (targetPath commitRef : string) : Prog string :=
  try_catch
    ('(stdout, _) ← execAsync (logMessageCommand targetPath commitRef);
     mret (Js.trim stdout))
    (fun error =>
       logger LWarning
         ("Could not get original message for commit " +:+ commitRef +:+ ": "
            +:+ err_message error);;
       mret "").

(** [const [newHash, ...rest] = newLogStdout.trim().split("\n")] and
    [rest.join("\n")]. *)
Definition parseConfirmation (newLogStdout : string) : string * string :=
  match Js.split "010"%char (Js.trim newLogStdout) with
  | [] => ("", "")
  | newHash :: rest => (newHash, Js.join Js.nl rest)
  end.

(** Lines 149-180: run the amend, read the tip back, report success. *)
Definition amendAndConfirm (targetPath originalMessage command : string)
  : Prog GitRewordResult :=
  logger LDebug ("Executing command: " +:+ command);;
  '(stdout, stderr) ← execAsync command;
  logger LDebug ("Git reword stdout: " +:+ stdout);;
  (if Js.is_empty stderr then mret tt
   else logger LWarning ("Git reword stderr: " +:+ stderr));;
  '(newLogStdout, _) ← execAsync (confirmCommand targetPath);
  let '(newHash, newCommitMessage) := parseConfirmation newLogStdout in
  logger LInfo "git reword executed successfully";;
  mret {| success := true;
          message := "Commit message reworded successfully.";
          originalMessage := Some originalMessage;
          newMessage' := Some newCommitMessage;
          hash := Some newHash;
          rebaseInstructions := None |}.

(** ** [rewordGitCommit], first revision (part_000, lines 42-213)

    The tip is amended in place; for any other reference the parent is
    resolved and a manual rebase procedure is returned. *)

Module Guided.
Section Logic.

(** [sanitization.sanitizePath] lives in the utilities module: it
    returns the sanitized path or throws. *)
Variable sanitizePath : string -> option PathSanitizeOptions -> JsError + string.

Definition sanitizedTarget (input : GitRewordInput) (context : LogicContext)
  : JsError + string :=
  sanitizePath (requestedPath input context) (Some {| allowAbsolute := true |}).

(** Lines 86-99: the parent of the target commit. *)
Definition resolveParent (targetPath commitRef : string) : Prog string :=
  try_catch
    ('(stdout, _) ← execAsync (revParseParentCommand targetPath commitRef);
     mret (Js.trim stdout))
    (fun error =>
       Throw (McpError VALIDATION_ERROR
                ("Could not find parent commit for " +:+ commitRef
                   +:+ ". This might be the root commit or an invalid commit hash."))).

(** Lines 114-125. *)
Definition rebaseInstructionsText
  (targetPath commitRef parentCommit sanitizedNewMessage : string) : string :=
  Js.join Js.nl
    [ "To reword commit " +:+ commitRef +:+ ", run the following commands:";
      "";
      "1. Start interactive rebase: " +:+ git_C targetPath +:+ " rebase -i " +:+ parentCommit;
      "2. In the editor, change 'pick' to 'reword' for commit " +:+ commitRef;
      "3. Save and close the editor";
      "4. When the rebase stops for the reword, the commit message editor will open";
      "5. Replace the message with: " +:+ sanitizedNewMessage;
      "6. Save and close the editor";
      "7. The rebase will continue automatically";
      "";
      "Alternatively, you can use this one-liner (but be careful):";
      "echo '" +:+ sanitizedNewMessage +:+ "' > /tmp/new_message && "
        +:+ git_C targetPath +:+ " rebase -i " +:+ parentCommit
        +:+ " --exec 'git commit --amend -F /tmp/new_message'" ].

(** Lines 82-147: a reference other than the tip. *)
Definition historicCommit
  (targetPath commitRef originalMessage sanitizedNewMessage : string)
  : Prog GitRewordResult :=
  parentCommit ← resolveParent targetPath commitRef;
  now ← Date_now;
  let tempMessageFile := targetPath +:+ "/.git-reword-message-" +:+ pretty now in
  try_catch
    (fs_writeFile tempMessageFile sanitizedNewMessage;;
     let rebaseCommand :=
       git_C targetPath +:+ " rebase -i " +:+ parentCommit
         +:+ " --exec 'git commit --amend -F " +:+ Js.quoted tempMessageFile +:+ "'" in
     let rebaseInstructions :=
       rebaseInstructionsText targetPath commitRef parentCommit sanitizedNewMessage in
     fs_unlink_quiet tempMessageFile;;
     mret {| success := false;
             message := "Rewording commit " +:+ commitRef
                          +:+ " requires an interactive rebase.";
             originalMessage := Some originalMessage;
             newMessage' := Some sanitizedNewMessage;
             hash := Some commitRef;
             rebaseInstructions := Some rebaseInstructions |})
    (fun error =>
       fs_unlink_quiet tempMessageFile;;
       Throw error).

(** Lines 55-180: the body of the outer [try]. *)
Definition rewordBody (input : GitRewordInput) (targetPath : string)
  : Prog GitRewordResult :=
  let commitRef := Js.or (commitHash input) "HEAD" in
  originalMessage ← readOriginalMessage targetPath commitRef;
  let sanitizedNewMessage := sanitizeMessage (newMessage input) in
  if decide (commitRef = "HEAD") then
    amendAndConfirm targetPath originalMessage
      (amendCommand targetPath sanitizedNewMessage)
  else
    historicCommit targetPath commitRef originalMessage sanitizedNewMessage.

Definition rewordGitCommit (input : GitRewordInput) (context : LogicContext)
  : Prog GitRewordResult :=
  match sanitizedTarget input context with
  | inl error => Throw error
  | inr targetPath =>
      try_catch (rewordBody input targetPath) (onFailure targetPath)
  end.

End Logic.
End Guided.

(** ** [rewordGitCommit], second revision (part_000, lines 254-399)

    Only the tip is reworded; for any other reference the caller is told
    to rebase by hand. *)

Module HeadOnly.
Section Logic.

Variable sanitizePath : string -> option PathSanitizeOptions -> JsError + string.

Definition sanitizedTarget (input : GitRewordInput) (context : LogicContext)
  : JsError + string :=
  sanitizePath (requestedPath input context) None.

(** The advisory result of lines 324-329. *)
Definition rebaseAdvice (commitRef : string) : GitRewordResult :=
  {| success := false;
     message := "Rewording a specific past commit (" +:+ commitRef
                  +:+ ") requires an interactive rebase. Please run 'git rebase -i "
                  +:+ commitRef
                  +:+ "^' in your terminal, then change 'pick' to 'reword' for the commit.";
     originalMessage := None;
     newMessage' := None;
     hash := None;
     rebaseInstructions := None |}.

Definition rewordBody (input : GitRewordInput) (targetPath : string)
  : Prog GitRewordResult :=
  let commitRef := Js.or (commitHash input) "HEAD" in
  originalMessage ←
    (if Js.truthy (commitHash input)
     then readOriginalMessage targetPath commitRef
     else mret "");
  let sanitizedNewMessage := sanitizeMessage (newMessage input) in
  if Js.truthy (commitHash input) && negb (bool_decide (commitRef = "HEAD")) then
    mret (rebaseAdvice commitRef)
  else
    amendAndConfirm targetPath originalMessage
      (amendCommand targetPath sanitizedNewMessage).

Definition rewordGitCommit (input : GitRewordInput) (context : LogicContext)
  : Prog GitRewordResult :=
  match sanitizedTarget input context with
  | inl error => Throw error
  | inr targetPath =>
      try_catch (rewordBody input targetPath) (onFailure targetPath)
  end.

End Logic.
End HeadOnly.

(** ** The stash dispatcher

    [gitStashLogic] lives in [gitStash/logic.js], which this development
    does not have; what the registration code reads off its result is
    [success], [message], [error] and [conflicts]. *)

Inductive StashMode : Type := ModeList | ModeSave | ModeApply | ModePop | ModeDrop.

Record GitStashInput : Type := mkStashInput {
  stash_path : string;
  mode : StashMode;
  stash_index : option nat;
  stash_message : option string;
  includeUntracked : bool
}.

Inductive ErrorKind : Type :=
| NotAGitRepository
| InvalidReference
| NoChangesToCommit
| MergeConflict
| PermissionDenied
| Unknown.

Inductive ConflictKind : Type :=
| ConflictContent
| ConflictAddAdd
| ConflictDeleteModify
| ConflictRename.

Record ConflictDescriptor : Type := mkConflict {
  filePath : string;
  kind : ConflictKind
}.

Record CommandOutcome : Type := mkCommandOutcome {
  exitCode : Z;
  stdout : string;
  stderr : string
}.

Record GitStashResult : Type := mkStashResult {
  stash_success : bool;
  stash_result_message : string;
  errorKind : option ErrorKind;
  conflicts : option (list ConflictDescriptor)
}.

Definition modeName (m : StashMode) : string :=
  match m with
  | ModeList => "list"
  | ModeSave => "save"
  | ModeApply => "apply"
  | ModePop => "pop"
  | ModeDrop => "drop"
  end.

Definition detectsConflicts (m : StashMode) : bool :=
  match m with
  | ModeApply | ModePop => true
  | _ => false
  end.

Section StashLogic.

(** How one line of git output names a conflicted path; the
    specification leaves the textual form of a conflict marker open. *)
Variable conflictMarker : string -> option ConflictDescriptor.

(** The human-readable message of a result; the specification does not
    fix its wording. *)
Variable stashMessage : StashMode -> CommandOutcome -> string.

(** The lines of both streams, standard output first. *)
Definition combinedLines (o : CommandOutcome) : list string :=
  Js.split "010"%char (stdout o) ++ Js.split "010"%char (stderr o).

Definition parseConflicts (o : CommandOutcome) : list ConflictDescriptor :=
  omap conflictMarker (combinedLines o).

(** Modelled from the spec: the ErrorClassifier's ordered rule table
    (section 4.3), matched without regard to letter case. *)
Definition classify (combinedText : string) : ErrorKind :=
  let t := Js.toLowerCase combinedText in
  if Js.includes t "not a git repository" then NotAGitRepository
  else if Js.includes t "no changes" then NoChangesToCommit
  else if Js.includes t "unknown revision" || Js.includes t "bad revision"
          || Js.includes t "ambiguous argument" then InvalidReference
  else if Js.includes t "conflict" then MergeConflict
  else if Js.includes t "permission denied" then PermissionDenied
  else Unknown.

(** Modelled from the spec: what [gitStashLogic] (gitStash/logic.js,
    missing) makes of the outcome of the stash command in the modes
    [apply] and [pop] (section 4.5): conflict markers in the combined
    output give [success = false] with [conflicts] populated and no
    [errorKind]; otherwise a non-zero exit is a hard failure that is
    classified, and a zero exit is a success. *)
Definition stashOutcomeResult (m : StashMode) (o : CommandOutcome) : GitStashResult :=
  let found := if detectsConflicts m then parseConflicts o else [] in
  match found with
  | _ :: _ =>
      {| stash_success := false;
         stash_result_message := stashMessage m o;
         errorKind := None;
         conflicts := Some found |}
  | [] =>
      if decide (exitCode o = 0) then
        {| stash_success := true;
           stash_result_message := stashMessage m o;
           errorKind := None;
           conflicts := None |}
      else
        {| stash_success := false;
           stash_result_message := stashMessage m o;
           errorKind := Some (classify (Js.or (Some (stderr o)) (stdout o)));
           conflicts := None |}
  end.

End StashLogic.

(** ** Tool registration (part_001 and gitStash/registration.ts) *)

Record TextContent : Type := mkText {
  type_ : string;
  text : string;
  contentType : string
}.

Record CallToolResult : Type := mkCallToolResult { content : list TextContent }.

Definition jsonContent (json : string) : TextContent :=
  {| type_ := "text"; text := json; contentType := "application/json" |}.

Section Registration.

(** The SDK's server and request context, and the helpers of the
    utilities module the registration code calls. *)
Context {McpServer RequestContext : Type}.

(** [server.tool(name, description, shape, handler)]: the server with
    the tool added, or the error the SDK throws. *)
Variable server_tool :
  forall Input : Type, string -> string ->
    (Input -> RequestContext -> Prog CallToolResult) ->
    McpServer -> JsError + McpServer.

(** [requestContextService.createRequestContext] with a parent context. *)
Variable createRequestContext : string -> RequestContext -> RequestContext.

(** [ErrorHandler.handleError]: the error that [ErrorHandler.tryCatch]
    rethrows. *)
Variable handleError : JsError -> JsError.

Definition GetWorkingDirectoryFn : Type := option string -> option string.
Definition GetSessionIdFn : Type := RequestContext -> option string.

(** The two module-level variables of a registration module. *)
Record StateAccessors : Type := mkAccessors {
  _getWorkingDirectory : option GetWorkingDirectoryFn;
  _getSessionId : option GetSessionIdFn
}.

(** The module as loaded: both variables undefined. *)
Definition uninitialized : StateAccessors :=
  {| _getWorkingDirectory := None; _getSessionId := None |}.

(** [ErrorHandler.tryCatch] around asynchronous code. *)
Definition tryCatch {A} (p : Prog A) : Prog A :=
  try_catch p (fun error => Throw (handleError error)).

(** [ErrorHandler.tryCatch] around the call of [server.tool].  The
    registration path is modelled on the server alone; its log lines are
    left out. *)
Definition tryCatchRegistration (server : McpServer) (r : JsError + McpServer)
  : Outcome unit * McpServer :=
  match r with
  | inr server' => (Returned tt, server')
  | inl error => (Thrown (handleError error), server)
  end.

Definition logicContextFor (getWd : GetWorkingDirectoryFn) (getSid : GetSessionIdFn)
  (requestContext : RequestContext) : LogicContext :=
  let sessionId := getSid requestContext in
  {| sessionId := sessionId;
     getWorkingDirectory := fun _ => getWd sessionId |}.

(** *** git_reword *)

Section GitReword.

(** [rewordGitCommit] of [./logic.js] and [JSON.stringify(result, null, 2)]. *)
Variable rewordGitCommit : GitRewordInput -> LogicContext -> Prog GitRewordResult.
Variable stringifyReword : GitRewordResult -> string.

Definition GitReword_TOOL_NAME : string := "git_reword".

Definition GitReword_TOOL_DESCRIPTION : string :=
  "Rewords the message of the most recent commit (HEAD) in the Git repository. Returns the reword result as a JSON object."
  +:+ Js.nl +:+ Js.nl
  +:+ "**Commit Message Guidance:**" +:+ Js.nl
  +:+ "Write clear, concise commit messages using the Conventional Commits format: `type(scope): subject`."
  +:+ Js.nl
  +:+ "- `type`: feat, fix, docs, style, refactor, test, chore, etc." +:+ Js.nl
  +:+ "- `(scope)`: Optional context (e.g., `auth`, `ui`, filename)." +:+ Js.nl
  +:+ "- `subject`: Imperative, present tense description (e.g., "
  +:+ Js.quoted "add login button" +:+ ", not " +:+ Js.quoted "added login button"
  +:+ ")." +:+ Js.nl
  +:+ "- Subject (Commit Title) line should be concise and limited to 72 characters. Emojis can also be used in the subject line for visual cues (e.g., ✨ feat: add new feature)."
  +:+ Js.nl +:+ Js.nl
  +:+ "**Important Note:** This tool only supports rewording the *last* commit (HEAD). To reword an older commit, you must use `git rebase -i <commit-before-target>` manually in your terminal."
  +:+ Js.nl +:+ Js.nl
  +:+ "**Tool Options & Behavior:**" +:+ Js.nl
  +:+ "- The `path` defaults to the session's working directory unless overridden."
  +:+ Js.nl.

Definition initializeGitRewordStateAccessors
  (getWdFn : GetWorkingDirectoryFn) (getSidFn : GetSessionIdFn)
  (_ : StateAccessors) : StateAccessors :=
  {| _getWorkingDirectory := Some getWdFn; _getSessionId := Some getSidFn |}.

(** The handler passed to [server.tool] (lines 66-120). *)
Definition gitRewordHandler (getWd : GetWorkingDirectoryFn) (getSid : GetSessionIdFn)
  (validatedArgs : GitRewordInput) (callContext : RequestContext)
  : Prog CallToolResult :=
  let requestContext := createRequestContext "tool:git_reword" callContext in
  let logicContext := logicContextFor getWd getSid requestContext in
  logger LInfo ("Executing tool: " +:+ GitReword_TOOL_NAME);;
  tryCatch
    (rewordResult ← rewordGitCommit validatedArgs logicContext;
     let resultContent := jsonContent (stringifyReword rewordResult) in
     (if success rewordResult then
        logger LInfo ("Tool " +:+ GitReword_TOOL_NAME
                        +:+ " executed successfully, returning JSON")
      else
        logger LInfo ("Tool " +:+ GitReword_TOOL_NAME
                        +:+ " completed with non-fatal condition (e.g., nothing to reword), returning JSON"));;
     mret {| content := [resultContent] |}).

Definition registerGitRewordTool (accessors : StateAccessors) (server : McpServer)
  : Outcome unit * McpServer :=
  match _getWorkingDirectory accessors, _getSessionId accessors with
  | Some getWd, Some getSid =>
      tryCatchRegistration server
        (server_tool GitRewordInput GitReword_TOOL_NAME GitReword_TOOL_DESCRIPTION
           (gitRewordHandler getWd getSid) server)
  | _, _ =>
      (Thrown (PlainError
                 "State accessors for git_reword must be initialized before registration."),
       server)
  end.

End GitReword.

(** *** git_stash *)

Section GitStash.

(** [gitStashLogic] of [./logic.js] and [JSON.stringify(result, null, 2)]. *)
Variable gitStashLogic : GitStashInput -> LogicContext -> Prog GitStashResult.
Variable stringifyStash : GitStashResult -> string.

Definition GitStash_TOOL_NAME : string := "git_stash".

Definition GitStash_TOOL_DESCRIPTION : string :=
  "Manages stashed changes in the working directory. Supports listing stashes, applying/popping specific stashes (with conflict detection), dropping stashes, and saving current changes to a new stash with an optional message. Returns results as a JSON object.".

Definition initializeGitStashStateAccessors
  (getWdFn : GetWorkingDirectoryFn) (getSidFn : GetSessionIdFn)
  (_ : StateAccessors) : StateAccessors :=
  {| _getWorkingDirectory := Some getWdFn; _getSessionId := Some getSidFn |}.

(** The handler passed to [server.tool] (lines 80-148). *)
Definition gitStashHandler (getWd : GetWorkingDirectoryFn) (getSid : GetSessionIdFn)
  (toolInput : GitStashInput) (callContext : RequestContext)
  : Prog CallToolResult :=
  let toolOperation := "tool:" +:+ GitStash_TOOL_NAME +:+ ":" +:+ modeName (mode toolInput) in
  let requestContext := createRequestContext toolOperation callContext in
  let logicContext := logicContextFor getWd getSid requestContext in
  logger LInfo ("Executing tool: " +:+ GitStash_TOOL_NAME
                  +:+ " (mode: " +:+ modeName (mode toolInput) +:+ ")");;
  tryCatch
    (stashResult ← gitStashLogic toolInput logicContext;
     let resultContent := jsonContent (stringifyStash stashResult) in
     (if stash_success stashResult then
        logger LInfo ("Tool " +:+ GitStash_TOOL_NAME
                        +:+ " (mode: " +:+ modeName (mode toolInput)
                        +:+ ") executed successfully, returning JSON")
      else
        logger LWarning ("Tool " +:+ GitStash_TOOL_NAME
                           +:+ " (mode: " +:+ modeName (mode toolInput)
                           +:+ ") failed: " +:+ stash_result_message stashResult));;
     mret {| content := [resultContent] |}).

Definition registerGitStashTool (accessors : StateAccessors) (server : McpServer)
  : Outcome unit * McpServer :=
  match _getWorkingDirectory accessors, _getSessionId accessors with
  | Some getWd, Some getSid =>
      tryCatchRegistration server
        (server_tool GitStashInput GitStash_TOOL_NAME GitStash_TOOL_DESCRIPTION
           (gitStashHandler getWd getSid) server)
  | _, _ =>
      (Thrown (PlainError
                 "State accessors for git_stash must be initialized before registration."),
       server)
  end.

End GitStash.

End Registration.

(** ** A small executable environment

    A directory holding a linear history, behind the fragment of the
    shell's word splitting the command strings above exercise (blanks
    separate words, double quotes group).  It answers the four git
    invocations of the reword logic and is used to run the operations on
    concrete repositories. *)

Module MiniGit.

Record Commit : Type := mkCommit { c_hash : string; c_message : string }.

Record World : Type := mkWorld {
  repo : string;            (* the one directory that is a repository *)
  commits : list Commit;    (* tip first *)
  read_only : bool;         (* the directory cannot be written to *)
  locked : bool;            (* a stale lock makes the next command fail *)
  clock : Z;
  files : list (string * string)
}.

Definition push (c : ascii) (cur : option string) : option string :=
  Some (from_option (fun w => w +:+ String c "") (String c "") cur).

(** Word splitting: [None] is the shell's syntax error on an open quote. *)
Fixpoint words_go (s : string) (inq : bool) (cur : option string)
  : option (list string) :=
  match s with
  | "" => if inq then None else Some (option_list cur)
  | String c s' =>
      if decide (c = "034"%char) then
        words_go s' (negb inq) (Some (default "" cur))
      else if negb inq && bool_decide (c = " "%char) then
        (option_list cur ++.) <$> words_go s' false None
      else words_go s' inq (push c cur)
  end.

Definition words (command : string) : option (list string) :=
  words_go command false None.

Definition failed (stderr : string) : ExecResult :=
  Rejected {| err_code := None;
              err_message := "Command failed: " +:+ stderr;
              err_stderr := Some stderr;
              err_stdout := Some "" |}.

Definition names (ref : string) (c : Commit) : bool :=
  bool_decide (c_hash c = ref).

Definition resolve (ref : string) (cs : list Commit) : option Commit :=
  if decide (ref = "HEAD") then head cs else List.find (names ref) cs.

Fixpoint parent (ref : string) (cs : list Commit) : option Commit :=
  match cs with
  | [] => None
  | c :: rest =>
      if bool_decide (ref = "HEAD") || names ref c then head rest
      else parent ref rest
  end.

Fixpoint strip_caret (s : string) : option string :=
  match s with
  | "" => None
  | String c s' =>
      if Js.is_empty s' then (if decide (c = "^"%char) then Some "" else None)
      else String c <$> strip_caret s'
  end.

Definition unknown_revision (ref : string) : ExecResult :=
  failed ("fatal: ambiguous argument '" +:+ ref
            +:+ "': unknown revision or path not in the working tree.").

Definition amended (message : string) (w : World) : World :=
  match commits w with
  | [] => w
  | tip :: rest =>
      mkWorld (repo w)
        (mkCommit (String.rev (c_hash tip)) message :: rest)
        (read_only w) (locked w) (clock w) (files w)
  end.

Definition git (argv : list string) (w : World) : ExecResult * World :=
  match argv with
  | g :: c :: dir :: sub =>
      if negb (bool_decide (g = "git" ∧ c = "-C")) then
        (failed "sh: 1: command not found", w)
      else if negb (bool_decide (dir = repo w)) then
        (failed "fatal: not a git repository (or any of the parent directories): .git", w)
      else
        match sub with
        | [l; n; fmt; ref] =>
            if bool_decide ([l; n; fmt] = ["log"; "-1"; "--pretty=format:%B"]) then
              match resolve ref (commits w) with
              | Some k => (Resolved (c_message k +:+ Js.nl) "", w)
              | None => (unknown_revision ref, w)
              end
            else if bool_decide ([l; n; fmt] = ["commit"; "--amend"; "-m"]) then
              match commits w with
              | [] => (failed "fatal: You have nothing to amend.", w)
              | _ => (Resolved ("[main] " +:+ ref +:+ Js.nl) "", amended ref w)
              end
            else (failed "usage: git", w)
        | [l; n; fmt] =>
            if bool_decide ([l; n; fmt] = ["log"; "-1"; "--pretty=format:%H%n%B"]) then
              match commits w with
              | k :: _ => (Resolved (c_hash k +:+ Js.nl +:+ c_message k +:+ Js.nl) "", w)
              | [] => (failed "fatal: your current branch does not have any commits yet", w)
              end
            else (failed "usage: git", w)
        | [rp; refc] =>
            if bool_decide (rp = "rev-parse") then
              match strip_caret refc ≫= (fun ref => parent ref (commits w)) with
              | Some k => (Resolved (c_hash k +:+ Js.nl) "", w)
              | None => (unknown_revision refc, w)
              end
            else (failed "usage: git", w)
        | _ => (failed "usage: git", w)
        end
  | _ => (failed "sh: 1: command not found", w)
  end.

Definition unlocked (w : World) : World :=
  mkWorld (repo w) (commits w) (read_only w) false (clock w) (files w).

Definition sh (command : string) (w : World) : ExecResult * World :=
  if locked w then
    (failed "fatal: Unable to create index.lock: File exists.", unlocked w)
  else
    match words command with
    | None => (failed "sh: 1: Syntax error: Unterminated quoted string", w)
    | Some argv => git argv w
    end.

Definition writeFile (file data : string) (w : World) : option JsError * World :=
  if read_only w then
    (Some (PlainError ("EACCES: permission denied, open '" +:+ file +:+ "'")), w)
  else
    (None, mkWorld (repo w) (commits w) (read_only w) (locked w) (clock w)
             ((file, data) :: files w)).

Definition unlink (file : string) (w : World) : option JsError * World :=
  (None, mkWorld (repo w) (commits w) (read_only w) (locked w) (clock w)
           (filter (fun e => e.1 ≠ file) (files w))).

Definition now (w : World) : Z * World :=
  (clock w, mkWorld (repo w) (commits w) (read_only w) (locked w)
              (clock w + 1) (files w)).

Definition env : Env World :=
  {| env_exec := sh; env_writeFile := writeFile;
     env_unlink := unlink; env_now := now |}.

(** A sanitizer that accepts every path unchanged. *)
Definition keep_path (p : string) (_ : option PathSanitizeOptions)
  : JsError + string := inr p.

(** Two commits in [/repo]: the root [a1] and the tip [b2]. *)
Definition two_commits : World :=
  {| repo := "/repo";
     commits := [mkCommit "b2" "wip"; mkCommit "a1" "initial"];
     read_only := false; locked := false; clock := 1700; files := [] |}.

(** The same history in a directory that cannot be written to. *)
Definition read_only_repo : World :=
  {| repo := "/repo";
     commits := [mkCommit "b2" "wip"; mkCommit "a1" "initial"];
     read_only := true; locked := false; clock := 1700; files := [] |}.


Definition session (dir : option string) : LogicContext :=
  {| sessionId := Some "s1"; getWorkingDirectory := fun _ => dir |}.

End MiniGit.

(** ** Git output for concrete stash runs *)

(** A repository-relative path does not start at the root. *)
Definition relativePath (p : string) : bool := negb (Js.startsWith p "/").

(** Git's report of a content conflict, as one reader of conflict
    markers: [CONFLICT (content): Merge conflict in <path>]. *)
Module GitOutput.

Fixpoint dropPrefix (prefix s : string) : option string :=
  match prefix, s with
  | "", _ => Some s
  | String _ _, "" => None
  | String a prefix', String b s' =>
      if decide (a = b) then dropPrefix prefix' s' else None
  end.

Definition mergeConflictLine (line : string) : option ConflictDescriptor :=
  p ← dropPrefix "CONFLICT (content): Merge conflict in " line;
  if relativePath p then Some {| filePath := p; kind := ConflictContent |} else None.

Definition describe (m : StashMode) (_ : CommandOutcome) : string :=
  "git stash " +:+ modeName m.

(** What [git stash pop] prints when two files conflict. *)
Definition conflicting_pop : CommandOutcome :=
  {| exitCode := 1;
     stdout := Js.join Js.nl
                 [ "Auto-merging src/index.ts";
                   "CONFLICT (content): Merge conflict in src/index.ts";
                   "Auto-merging README.md";
                   "CONFLICT (content): Merge conflict in README.md" ];
     stderr := "The stash entry is kept in case you need it again." |}.

(** The outcome of a settled [exec] call. *)
Definition commandOutcomeOf (r : ExecResult) : CommandOutcome :=
  match r with
  | Resolved out err => {| exitCode := 0; stdout := out; stderr := err |}
  | Rejected e =>
      {| exitCode := 1;
         stdout := default "" (err_stdout e);
         stderr := default "" (err_stderr e) |}
  end.

(** A stash logic that runs the stash subcommand of its mode and reads
    the outcome as the dispatcher does. *)
Definition stashLogic (input : GitStashInput) (_ : LogicContext) : Prog GitStashResult :=
  Exec (git_C (stash_path input) +:+ " stash " +:+ modeName (mode input))
    (fun r => Ret (stashOutcomeResult mergeConflictLine describe (mode input)
                     (commandOutcomeOf r))).

(** An environment in which every command ends like [conflicting_pop]. *)
Definition conflicted : Env unit :=
  {| env_exec := fun _ w =>
       (Rejected {| err_code := None;
                    err_message := "Command failed";
                    err_stderr := Some (stderr conflicting_pop);
                    err_stdout := Some (stdout conflicting_pop) |}, w);
     env_writeFile := fun _ _ w => (None, w);
     env_unlink := fun _ w => (None, w);
     env_now := fun w => (0, w) |}.

Definition pop_latest : GitStashInput :=
  {| stash_path := "/repo"; mode := ModePop; stash_index := None;
     stash_message := None; includeUntracked := false |}.

End GitOutput.

(** ** The vocabulary of the properties *)

(** The four command strings of a reword, for a target directory, a
    commit reference and a (sanitized) message. *)
Definition rewordCommands (targetPath commitRef sanitizedNewMessage : string)
  : list string :=
  [ logMessageCommand targetPath commitRef;
    amendCommand targetPath sanitizedNewMessage;
    revParseParentCommand targetPath commitRef;
    confirmCommand targetPath ].

Definition commitRefOf (input : GitRewordInput) : string :=
  Js.or (commitHash input) "HEAD".

(** An [exec] call of a reword carries one of the four command strings. *)
Definition rewordCall (targetPath : string) (input : GitRewordInput)
  (ev : Event) : Prop :=
  match ev with
  | EvExec c =>
      c ∈ rewordCommands targetPath (commitRefOf input)
            (sanitizeMessage (newMessage input))
  | _ => True
  end.

(** A visible ASCII character, and a word made of them, as a commit
    hash is. *)
Definition word_char (c : ascii) : bool :=
  let n := N_of_ascii c in ((33 <=? n) && (n <=? 126))%N.

Fixpoint ascii_word (s : string) : bool :=
  match s with
  | "" => true
  | String c s' => word_char c && ascii_word s'
  end.

(** Success flag and error kind of a run: a returned result has a flag
    and no error kind, a thrown error has the kind it carries. *)
Definition verdict (o : Outcome GitRewordResult) : option bool * option BaseErrorCode :=
  match o with
  | Returned res => (Some (success res), None)
  | Thrown error => (None, err_code error)
  end.


(** The temporary message file of lines 101-107, for the clock value the
    environment reports in state [w]. *)
Definition tempMessageFile {W} (env : Env W) (targetPath : string) (w : W) : string :=
  targetPath +:+ "/.git-reword-message-" +:+ pretty (env_now env w).1.

(** The error raised at lines 94-98. *)
Definition parentNotFound (commitRef : string) : JsError :=
  McpError VALIDATION_ERROR
    ("Could not find parent commit for " +:+ commitRef
       +:+ ". This might be the root commit or an invalid commit hash.").

(** Every call a program can make, whatever the environment answers,
    satisfies [P]. *)
Fixpoint always {A} (P : Event -> Prop) (p : Prog A) : Prop :=
  match p with
  | Ret _ | Throw _ => True
  | Exec c k => P (EvExec c) /\ forall r, always P (k r)
  | WriteFile f d k => P (EvWriteFile f d) /\ forall r, always P (k r)
  | Unlink f k => P (EvUnlink f) /\ forall r, always P (k r)
  | DateNow k => P EvDateNow /\ forall t, always P (k t)
  | Log l m k => P (EvLog l m) /\ always P k
  end.


(** ** A scripted environment

    The environment answers the commands it is given from a list, in
    order, whatever the command; writing the temporary file fails or
    not as the state says. *)

Module Scripted.

Record World : Type := mkWorld {
  answers : list ExecResult;
  write_error : option JsError;
  time : Z
}.

Definition exec (_ : string) (w : World) : ExecResult * World :=
  match answers w with
  | r :: rest => (r, mkWorld rest (write_error w) (time w))
  | [] => (Rejected (PlainError "spawn /bin/sh ENOENT"), w)
  end.

Definition env : Env World :=
  {| env_exec := exec;
     env_writeFile := fun _ _ w => (write_error w, w);
     env_unlink := fun _ w => (None, w);
     env_now := fun w => (time w, w) |}.

(** A sanitizer that rejects every path. *)
Definition reject_path (p : string) (_ : option PathSanitizeOptions)
  : JsError + string :=
  inl (McpError VALIDATION_ERROR ("Invalid path: " +:+ p)).

End Scripted.

(** ** A shell that sequences commands

    The small environment again, behind a shell that also splits a
    command line at the semicolons outside double quotes and runs the
    parts in turn, as [sh -c] does: the outputs are joined and the last
    part decides whether the line succeeded. *)

Module Shell.

Fixpoint simple_commands_go (s : string) (inq : bool) (cur : string) : list string :=
  match s with
  | "" => [cur]
  | String c s' =>
      if decide (c = "034"%char) then
        simple_commands_go s' (negb inq) (cur +:+ String c "")
      else if negb inq && bool_decide (c = ";"%char) then
        cur :: simple_commands_go s' false ""
      else simple_commands_go s' inq (cur +:+ String c "")
  end.

Definition simple_commands (line : string) : list string :=
  simple_commands_go line false "".

Definition run_simple (command : string) (w : MiniGit.World)
  : ExecResult * MiniGit.World :=
  match MiniGit.words command with
  | None => (MiniGit.failed "sh: 1: Syntax error: Unterminated quoted string", w)
  | Some [] => (Resolved "" "", w)
  | Some argv => MiniGit.git argv w
  end.

Definition stdout_of (r : ExecResult) : string :=
  match r with
  | Resolved out _ => out
  | Rejected e => default "" (err_stdout e)
  end.

Definition after (out : string) (r : ExecResult) : ExecResult :=
  match r with
  | Resolved o e => Resolved (out +:+ o) e
  | Rejected e =>
      Rejected {| err_code := err_code e; err_message := err_message e;
                  err_stderr := err_stderr e;
                  err_stdout := Some (out +:+ default "" (err_stdout e)) |}
  end.

Fixpoint run_list (parts : list string) (out : string) (w : MiniGit.World)
  : ExecResult * MiniGit.World :=
  match parts with
  | [] => (Resolved out "", w)
  | c :: rest =>
      let '(r, w') := run_simple c w in
      match rest with
      | [] => (after out r, w')
      | _ :: _ => run_list rest (out +:+ stdout_of r) w'
      end
  end.

Definition sh (line : string) (w : MiniGit.World) : ExecResult * MiniGit.World :=
  match MiniGit.words line with
  | None => (MiniGit.failed "sh: 1: Syntax error: Unterminated quoted string", w)
  | Some _ => run_list (simple_commands line) "" w
  end.

Definition env : Env MiniGit.World :=
  {| env_exec := sh; env_writeFile := MiniGit.writeFile;
     env_unlink := MiniGit.unlink; env_now := MiniGit.now |}.

End Shell.

(** ** More vocabulary *)

(** The file-system calls of a run, in order. *)
Definition fileEvents (evs : list Event) : list Event :=
  omap (fun ev => match ev with
                  | EvWriteFile _ _ | EvUnlink _ => Some ev
                  | _ => None
                  end) evs.

(** U+00A0, the no-break space, in UTF-8. *)
Definition nbsp : string := String "194" (String "160" "").

(** The arguments a validated input stands for. *)
Definition argsOf (input : GitRewordInput) : GitRewordArgs :=
  {| arg_path := Some (path input);
     arg_commitHash := commitHash input;
     arg_newMessage := Some (newMessage input) |}.

(** * Properties *)

(** ** Facts about strings *)

Section StringFacts.

Lemma append_cons (a : ascii) (s t : string) :
  String a s +:+ t = String a (s +:+ t).
Proof. reflexivity. Qed.

Lemma append_empty_l (t : string) : "" +:+ t = t.
Proof. reflexivity. Qed.

Lemma startsWith_app (s n t : string) :
  Js.startsWith s n = true -> Js.startsWith (s +:+ t) n = true.
Proof.
  revert s. induction n as [|a n IH]; intros s H.
  - destruct s; reflexivity.
  - destruct s as [|b s]; [discriminate|].
    rewrite append_cons. simpl in *.
    destruct (decide (a = b)); [auto | discriminate].
Qed.

Lemma startsWith_self (s : string) : Js.startsWith s s = true.
Proof.
  induction s as [|a s IH]; [reflexivity|].
  simpl. destruct (decide (a = a)); [assumption | congruence].
Qed.

Lemma includes_self (s : string) : Js.includes s s = true.
Proof.
  destruct s; [reflexivity|].
  unfold Js.includes. now rewrite startsWith_self.
Qed.

Lemma includes_app_l (s t n : string) :
  Js.includes s n = true -> Js.includes (s +:+ t) n = true.
Proof.
  induction s as [|a s IH]; intros H.
  - simpl in H. destruct (Js.startsWith "" n) eqn:E; [|discriminate].
    destruct n; [|discriminate].
    destruct t; reflexivity.
  - rewrite append_cons. simpl in *.
    destruct (Js.startsWith (String a s) n) eqn:E.
    + apply (startsWith_app _ _ t) in E. rewrite append_cons in E.
      now rewrite E.
    + destruct (Js.startsWith (String a (s +:+ t)) n); auto.
Qed.

Lemma includes_app_r (s t n : string) :
  Js.includes t n = true -> Js.includes (s +:+ t) n = true.
Proof.
  intros H. induction s as [|a s IH]; [assumption|].
  rewrite append_cons. simpl.
  destruct (Js.startsWith (String a (s +:+ t)) n); auto.
Qed.

(** The sanitizer replaces each double quote by itself. *)
Lemma sanitizeMessage_id (m : string) : sanitizeMessage m = m.
Proof.
  unfold sanitizeMessage.
  induction m as [|a m IH]; [reflexivity|].
  cbn [Js.replaceAll]. destruct (decide (a = "034"%char)) as [->|_].
  - rewrite IH. reflexivity.
  - now rewrite IH.
Qed.

End StringFacts.

(** Finds a named part inside a concatenation. *)
Ltac find_part :=
  solve [ apply includes_self
        | apply includes_app_l; find_part
        | apply includes_app_r; find_part ].

(** ** Facts about programs and their runs *)

Section ProgramFacts.

Context {A : Type}.

Lemma always_try_catch (P : Event -> Prop) (p : Prog A) (h : JsError -> Prog A) :
  always P p -> (forall e, always P (h e)) -> always P (try_catch p h).
Proof.
  intros Hp Hh. induction p; simpl in *; intuition auto.
Qed.

Lemma always_trace {W} (P : Event -> Prop) (env : Env W) (p : Prog A) (w : W) :
  always P p -> Forall P (trace (run env p w)).
Proof.
  revert w. induction p as [| |c k IH|f d k IH|f k IH|k IH|l m k IH];
    intros w Hp; simpl in *.
  - constructor.
  - constructor.
  - destruct (env_exec env c w) as [r w']. destruct Hp. constructor; auto.
  - destruct (env_writeFile env f d w) as [r w']. destruct Hp. constructor; auto.
  - destruct (env_unlink env f w) as [r w']. destruct Hp. constructor; auto.
  - destruct (env_now env w) as [t w']. destruct Hp. constructor; auto.
  - destruct Hp. constructor; auto.
Qed.


End ProgramFacts.

Lemma always_bind {A B} (P : Event -> Prop) (p : Prog A) (f : A -> Prog B) :
  always P p -> (forall a, always P (f a)) -> always P (bind p f).
Proof.
  intros Hp Hf. induction p; simpl in *; intuition auto.
Qed.

Lemma commands_spec (P : string -> Prop) (evs : list Event) :
  Forall (fun ev => match ev with EvExec c => P c | _ => True end) evs ->
  Forall P (commands evs).
Proof.
  induction 1 as [|ev evs Hev _ IH]; [constructor|].
  unfold commands in *. destruct ev; simpl; auto.
Qed.

(** Walks a program tree, splitting on every answer of the environment. *)
Ltac walk :=
  repeat (simpl;
    match goal with
    | |- True => exact I
    | |- _ /\ _ => split
    | |- forall _, _ => intro
    | |- always _ ?p =>
        match p with
        | context [match ?r with _ => _ end] => destruct r
        end
    end).

Ltac one_of_commands :=
  unfold rewordCall, rewordCommands; apply list_elem_of_In; simpl; tauto.

(** Splits on the next answer of the environment in a pair of runs. *)
Ltac answer :=
  match goal with
  | |- context [env_exec ?env ?c ?w] =>
      let r := fresh "r" in
      destruct (env_exec env c w) as [r ?]; try destruct r
  | |- context [env_writeFile ?env ?f ?d ?w] =>
      let r := fresh "r" in
      destruct (env_writeFile env f d w) as [r ?]; try destruct r
  | |- context [env_unlink ?env ?f ?w] => destruct (env_unlink env f w) as [? ?]
  | |- context [env_now ?env ?w] => destruct (env_now env w) as [? ?]
  | |- context [parseConfirmation ?x] => destruct (parseConfirmation x)
  | |- context [Js.is_empty ?x] => destruct (Js.is_empty x)
  end; simpl.

(** ** How git is invoked *)

Section Invocations.

Variable sanitizePath : string -> option PathSanitizeOptions -> JsError + string.

Lemma guided_body_calls (input : GitRewordInput) (targetPath : string) :
  always (rewordCall targetPath input)
    (try_catch (Guided.rewordBody input targetPath) (onFailure targetPath)).
Proof.
  unfold Guided.rewordBody, Guided.historicCommit, Guided.resolveParent,
    readOriginalMessage, amendAndConfirm, onFailure, execAsync, fs_writeFile,
    fs_unlink_quiet, Date_now, logger, mbind, mret, Prog_bind, Prog_ret.
  fold (commitRefOf input).
  destruct (decide (commitRefOf input = "HEAD")); walk; try one_of_commands.
Qed.

Lemma headonly_body_calls (input : GitRewordInput) (targetPath : string) :
  always (rewordCall targetPath input)
    (try_catch (HeadOnly.rewordBody input targetPath) (onFailure targetPath)).
Proof.
  unfold HeadOnly.rewordBody, readOriginalMessage, amendAndConfirm, onFailure,
    execAsync, logger, mbind, mret, Prog_bind, Prog_ret.
  fold (commitRefOf input).
  destruct (Js.truthy (commitHash input));
    destruct (bool_decide (commitRefOf input = "HEAD"));
    walk; try one_of_commands.
Qed.

Lemma calls_are_commands {W} (env : Env W) (p : Prog GitRewordResult) (w : W)
  (targetPath : string) (input : GitRewordInput) :
  always (rewordCall targetPath input) p ->
  Forall (fun c => c ∈ rewordCommands targetPath (commitRefOf input)
                         (sanitizeMessage (newMessage input)))
    (commands (trace (run env p w))).
Proof.
  intros H. apply commands_spec.
  eapply Forall_impl; [apply always_trace, H|].
  intros [] Hev; simpl in *; auto.
Qed.

(** C1 (as amended): in both revisions every git invocation is one
    command string handed to [exec], hence to the shell: one of the four
    templates, into which the sanitized target path (between double
    quotes), the commit reference (bare) and the message as returned by
    the sanitizing call (between double quotes) are spliced. *)
Theorem C1_git_runs_through_shell_strings
  {W} (env : Env W) (w : W) (input : GitRewordInput) (context : LogicContext) :
  let shaped sanitized c :=
    exists targetPath, sanitized = inr targetPath /\
      c ∈ [ git_C targetPath +:+ " log -1 --pretty=format:%B " +:+ commitRefOf input;
            git_C targetPath +:+ " commit --amend -m "
              +:+ Js.quoted (sanitizeMessage (newMessage input));
            git_C targetPath +:+ " rev-parse " +:+ commitRefOf input +:+ "^";
            git_C targetPath +:+ " log -1 --pretty=format:%H%n%B" ] in
  Forall (shaped (Guided.sanitizedTarget sanitizePath input context))
    (commands (trace (run env (Guided.rewordGitCommit sanitizePath input context) w)))
  /\
  Forall (shaped (HeadOnly.sanitizedTarget sanitizePath input context))
    (commands (trace (run env (HeadOnly.rewordGitCommit sanitizePath input context) w))).
Proof.
  intros shaped. split.
  - unfold Guided.rewordGitCommit.
    destruct (Guided.sanitizedTarget sanitizePath input context)
      as [e|targetPath] eqn:E; [constructor|].
    eapply Forall_impl; [apply calls_are_commands, guided_body_calls|].
    intros c Hc. exists targetPath. split; [reflexivity | exact Hc].
  - unfold HeadOnly.rewordGitCommit.
    destruct (HeadOnly.sanitizedTarget sanitizePath input context)
      as [e|targetPath] eqn:E; [constructor|].
    eapply Forall_impl; [apply calls_are_commands, headonly_body_calls|].
    intros c Hc. exists targetPath. split; [reflexivity | exact Hc].
Qed.

End Invocations.

(** C1 (as stated) fails: rewording the tip of [/repo] with the message
    [say DQ hi DQ] (DQ the double quote) hands [exec] one string with
    the message spliced in, and the shell's word splitting delivers
    [say hi] to git, not the message. *)
Lemma C1_message_is_spliced_into_a_shell_string :
  let msg := "say " +:+ Js.quoted "hi" in
  let input := {| path := "/repo"; commitHash := None; newMessage := msg |} in
  let r := run MiniGit.env
             (Guided.rewordGitCommit MiniGit.keep_path input (MiniGit.session None))
             MiniGit.two_commits in
  let amend := "git -C " +:+ Js.quoted "/repo" +:+ " commit --amend -m "
                 +:+ Js.dq +:+ msg +:+ Js.dq in
  amend ∈ commands (trace r)
  /\ Js.includes amend msg = true
  /\ MiniGit.words amend
     = Some ["git"; "-C"; "/repo"; "commit"; "--amend"; "-m"; "say hi"]
  /\ msg ∉ default [] (MiniGit.words amend).
Proof.
  vm_compute. repeat split.
  - apply list_elem_of_In. simpl. tauto.
  - intros H. apply list_elem_of_In in H. simpl in H.
    repeat (destruct H as [H|H]; [discriminate H|]). exact H.
Qed.

(** ** Rewording a commit that is not the tip *)

(** A reference other than HEAD was given by the caller. *)
Lemma historic_ref_is_given (input : GitRewordInput) :
  commitRefOf input <> "HEAD" -> Js.truthy (commitHash input) = true.
Proof.
  unfold commitRefOf, Js.or, Js.truthy.
  destruct (commitHash input) as [s|]; [|contradiction].
  destruct (Js.is_empty s); [contradiction | reflexivity].
Qed.

Section Historic.

Variable sanitizePath : string -> option PathSanitizeOptions -> JsError + string.
Context {W : Type} (env : Env W).

(** The first revision's run once the parent has been resolved and the
    temporary file written. *)
Lemma guided_advisory_run (input : GitRewordInput) (context : LogicContext)
  (targetPath : string) (w w1 : W) (out err : string) :
  commitRefOf input <> "HEAD" ->
  Guided.sanitizedTarget sanitizePath input context = inr targetPath ->
  env_exec env (revParseParentCommand targetPath (commitRefOf input))
    (env_exec env (logMessageCommand targetPath (commitRefOf input)) w).2
    = (Resolved out err, w1) ->
  (env_writeFile env (tempMessageFile env targetPath w1)
     (sanitizeMessage (newMessage input)) (env_now env w1).2).1 = None ->
  exists original,
    outcome (run env (Guided.rewordGitCommit sanitizePath input context) w)
    = Returned
        {| success := false;
           message := "Rewording commit " +:+ commitRefOf input
                        +:+ " requires an interactive rebase.";
           originalMessage := Some original;
           newMessage' := Some (sanitizeMessage (newMessage input));
           hash := Some (commitRefOf input);
           rebaseInstructions :=
             Some (Guided.rebaseInstructionsText targetPath (commitRefOf input)
                     (Js.trim out) (sanitizeMessage (newMessage input))) |}.
Proof.
  intros Href Hsan Hparent Hwrite.
  unfold Guided.rewordGitCommit. rewrite Hsan.
  unfold Guided.rewordBody, Guided.historicCommit, Guided.resolveParent,
    readOriginalMessage, execAsync, fs_writeFile, fs_unlink_quiet, Date_now,
    logger, mbind, mret, Prog_bind, Prog_ret, tempMessageFile in *.
  fold (commitRefOf input).
  destruct (decide (commitRefOf input = "HEAD")) as [Heq|_]; [contradiction|].
  simpl.
  destruct (env_exec env (logMessageCommand targetPath (commitRefOf input)) w)
    as [r0 w0].
  simpl in Hparent.
  destruct r0 as [out0 err0|e0]; simpl; rewrite Hparent; simpl;
    destruct (env_now env w1) as [t w2]; simpl in *;
    destruct (env_writeFile env _ _ w2) as [wr w3]; simpl in Hwrite; subst wr;
    simpl; destruct (env_unlink env _ w3) as [ur w4]; simpl;
    eexists; reflexivity.
Qed.

(** The second revision returns its advice without resolving anything. *)
Lemma headonly_advisory_run (input : GitRewordInput) (context : LogicContext)
  (targetPath : string) (w : W) :
  commitRefOf input <> "HEAD" ->
  HeadOnly.sanitizedTarget sanitizePath input context = inr targetPath ->
  outcome (run env (HeadOnly.rewordGitCommit sanitizePath input context) w)
  = Returned (HeadOnly.rebaseAdvice (commitRefOf input)).
Proof.
  intros Href Hsan.
  unfold HeadOnly.rewordGitCommit. rewrite Hsan.
  unfold HeadOnly.rewordBody, readOriginalMessage, execAsync, logger,
    mbind, mret, Prog_bind, Prog_ret.
  fold (commitRefOf input).
  rewrite (historic_ref_is_given input Href).
  rewrite bool_decide_eq_false_2 by assumption.
  simpl.
  destruct (env_exec env _ w) as [[out0 err0|e0] w0]; reflexivity.
Qed.

(** C2 (as amended): for a reference other than HEAD and a path the
    sanitizer accepts, (a) the first revision, when the parent resolves
    and the temporary message file can be written, returns a result
    (nothing is thrown) with [success = false] and non-empty
    [rebaseInstructions] that contain the reference and the new
    message; (b) the second revision returns a result with
    [success = false], no [rebaseInstructions], and a non-empty
    [message] that contains the reference. *)
Theorem C2_historic_reference_yields_advice
  (input : GitRewordInput) (context : LogicContext) (targetPath : string) (w : W)
  (Href : commitRefOf input <> "HEAD") :
  (Guided.sanitizedTarget sanitizePath input context = inr targetPath ->
   forall out err w1,
   env_exec env (revParseParentCommand targetPath (commitRefOf input))
     (env_exec env (logMessageCommand targetPath (commitRefOf input)) w).2
     = (Resolved out err, w1) ->
   (env_writeFile env (tempMessageFile env targetPath w1)
      (sanitizeMessage (newMessage input)) (env_now env w1).2).1 = None ->
   exists res text,
     outcome (run env (Guided.rewordGitCommit sanitizePath input context) w)
       = Returned res
     /\ success res = false
     /\ rebaseInstructions res = Some text
     /\ Js.is_empty text = false
     /\ Js.includes text (commitRefOf input) = true
     /\ Js.includes text (newMessage input) = true
     /\ hash res = Some (commitRefOf input)
     /\ newMessage' res = Some (newMessage input))
  /\
  (HeadOnly.sanitizedTarget sanitizePath input context = inr targetPath ->
   exists res,
     outcome (run env (HeadOnly.rewordGitCommit sanitizePath input context) w)
       = Returned res
     /\ success res = false
     /\ rebaseInstructions res = None
     /\ Js.is_empty (message res) = false
     /\ Js.includes (message res) (commitRefOf input) = true).
Proof.
  split.
  - intros Hsan out err w1 Hparent Hwrite.
    destruct (guided_advisory_run input context targetPath w w1 out err
                Href Hsan Hparent Hwrite) as [original Hrun].
    eexists. eexists. split; [exact Hrun|].
    cbn [success rebaseInstructions hash newMessage'].
    rewrite sanitizeMessage_id.
    repeat split; try reflexivity;
      unfold Guided.rebaseInstructionsText; cbn [Js.join]; find_part.
  - intros Hsan. eexists. split;
      [exact (headonly_advisory_run input context targetPath w Href Hsan)|].
    cbn [success rebaseInstructions message HeadOnly.rebaseAdvice].
    repeat split; try reflexivity. find_part.
Qed.

End Historic.

(** C2 on a concrete repository: rewording the tip [b2] by its hash. *)
Lemma C2_historic_reference_witness :
  let input := {| path := "/repo"; commitHash := Some "b2"; newMessage := "new msg" |} in
  (exists res text,
     outcome (run MiniGit.env
                (Guided.rewordGitCommit MiniGit.keep_path input (MiniGit.session None))
                MiniGit.two_commits) = Returned res
     /\ success res = false
     /\ rebaseInstructions res = Some text
     /\ Js.is_empty text = false
     /\ Js.includes text "b2" = true
     /\ Js.includes text "new msg" = true
     /\ hash res = Some "b2"
     /\ newMessage' res = Some "new msg")
  /\
  (exists res,
     outcome (run MiniGit.env
                (HeadOnly.rewordGitCommit MiniGit.keep_path input (MiniGit.session None))
                MiniGit.two_commits) = Returned res
     /\ success res = false
     /\ rebaseInstructions res = None
     /\ Js.is_empty (message res) = false
     /\ Js.includes (message res) "b2" = true).
Proof.
  intros input.
  assert (Href : commitRefOf input <> "HEAD") by (vm_compute; discriminate).
  destruct (C2_historic_reference_yields_advice MiniGit.keep_path MiniGit.env
              input (MiniGit.session None) "/repo" MiniGit.two_commits Href)
    as [HG HH].
  split.
  - apply (HG eq_refl ("a1" +:+ Js.nl) "" MiniGit.two_commits);
      vm_compute; reflexivity.
  - apply (HH eq_refl).
Defined.

(** C2 (as stated) fails.  In a directory that cannot be written to the
    parent of [b2] resolves, yet the first revision throws
    [INTERNAL_ERROR]; and the text the second revision returns never
    mentions the new message. *)
Lemma C2_advice_is_not_always_returned :
  let input := {| path := "/repo"; commitHash := Some "b2"; newMessage := "new msg" |} in
  ((env_exec MiniGit.env (revParseParentCommand "/repo" "b2")
      MiniGit.read_only_repo).1 = Resolved ("a1" +:+ Js.nl) ""
   /\ outcome (run MiniGit.env
                 (Guided.rewordGitCommit MiniGit.keep_path input (MiniGit.session None))
                 MiniGit.read_only_repo)
      = Thrown (McpError INTERNAL_ERROR
                  "Failed to reword commit. Error: EACCES: permission denied, open '/repo/.git-reword-message-1700'"))
  /\
  (exists res,
     outcome (run MiniGit.env
                (HeadOnly.rewordGitCommit MiniGit.keep_path input (MiniGit.session None))
                MiniGit.two_commits) = Returned res
     /\ success res = false
     /\ rebaseInstructions res = None
     /\ Js.includes (message res) "new msg" = false).
Proof.
  intros input. split; [split; vm_compute; reflexivity|].
  eexists. split; [vm_compute; reflexivity|].
  repeat split; vm_compute; reflexivity.
Qed.

(** ** Rewording the tip *)

Section ReadBack.

Lemma append_empty_r (s : string) : s +:+ "" = s.
Proof.
  induction s as [|a s IH]; [reflexivity|].
  now rewrite append_cons, IH.
Qed.

Lemma split_not_nil (sep : ascii) (s : string) :
  exists w ws, Js.split sep s = w :: ws.
Proof.
  induction s as [|a s (w & ws & IH)]; simpl; [eauto|].
  destruct (decide (a = sep)); [eauto|]. rewrite IH. eauto.
Qed.

(** Joining what was split on a separator gives the text back. *)
Lemma join_split (sep : ascii) (s : string) :
  Js.join (String sep "") (Js.split sep s) = s.
Proof.
  induction s as [|a s IH]; [reflexivity|].
  simpl. destruct (split_not_nil sep s) as (w & ws & E).
  rewrite E in *. destruct (decide (a = sep)) as [->|_].
  - change (Js.join (String sep "") ("" :: w :: ws))
      with ("" +:+ String sep "" +:+ Js.join (String sep "") (w :: ws)).
    now rewrite IH.
  - destruct ws as [|w' ws]; simpl in *; [now rewrite IH|].
    now rewrite append_cons, IH.
Qed.

(** A visible ASCII character starts no white space and is no line
    break. *)
Lemma word_char_is_no_space (c : ascii) :
  word_char c = true ->
  Ascii.is_space c = false
  /\ (forall b, Js.is_space2 c b = false)
  /\ (forall b d, Js.is_space3 c b d = false)
  /\ c <> "010"%char.
Proof.
  destruct c as [[] [] [] [] [] [] [] []]; intros H; try discriminate H;
    (split; [reflexivity|]); (split; [reflexivity|]); (split; [reflexivity|]);
    discriminate.
Qed.

Lemma trimStart_word_char (c : ascii) (s : string) :
  word_char c = true -> Js.trimStart (String c s) = String c s.
Proof.
  intros H. destruct (word_char_is_no_space c H) as (H1 & H2 & H3 & _).
  cbn [Js.trimStart]. rewrite H1.
  destruct s as [|c2 [|c3 s3]]; [reflexivity| |]; rewrite H2; [reflexivity|].
  now rewrite H3.
Qed.

(** The text kept by [trimEnd] is empty exactly when the text is white
    space throughout. *)
Lemma trimEnd_empty (s : string) :
  Js.is_empty (Js.trimEnd s) = Js.is_empty (Js.trimStart s).
Proof.
  destruct s as [|c s]; [reflexivity|].
  cbn [Js.trimEnd]. now destruct (Js.is_empty (Js.trimStart (String c s))).
Qed.

Lemma trimEnd_word_app (h t : string) :
  ascii_word h = true -> Js.trimEnd (h +:+ t) = h +:+ Js.trimEnd t.
Proof.
  induction h as [|c h IH]; intros Hh; [reflexivity|].
  simpl in Hh. apply andb_prop in Hh as [Hc Hh].
  rewrite !append_cons. cbn [Js.trimEnd].
  rewrite trimStart_word_char by assumption. simpl. now rewrite IH.
Qed.

Lemma trimEnd_line_break (body : string) :
  Js.trimEnd (String "010" body)
  = if Js.is_empty (Js.trimEnd body) then "" else String "010" (Js.trimEnd body).
Proof.
  cbn [Js.trimEnd]. rewrite trimEnd_empty.
  change (Js.trimStart (String "010" body)) with (Js.trimStart body).
  reflexivity.
Qed.

Lemma split_word_app (h t : string) :
  ascii_word h = true ->
  Js.split "010" (h +:+ t) =
    match Js.split "010" t with
    | w :: ws => (h +:+ w) :: ws
    | [] => [h]
    end.
Proof.
  destruct (split_not_nil "010" t) as (w & ws & E). rewrite E.
  induction h as [|c h IH]; intros Hh.
  - now rewrite append_empty_l.
  - simpl in Hh. apply andb_prop in Hh as [Hc Hh].
    destruct (word_char_is_no_space c Hc) as (_ & _ & _ & Hnl).
    rewrite append_cons. simpl.
    destruct (decide (c = "010"%char)) as [->|_]; [contradiction|].
    now rewrite IH.
Qed.

(** Lines 162-163 read a hash line followed by a body back as the hash
    and the body without its trailing white space. *)
Lemma parseConfirmation_reads_back (h body : string) :
  Js.is_empty h = false -> ascii_word h = true ->
  parseConfirmation (h +:+ Js.nl +:+ body) = (h, Js.trimEnd body).
Proof.
  intros Hne Hh. unfold parseConfirmation, Js.trim.
  assert (Js.trimStart (h +:+ Js.nl +:+ body) = h +:+ Js.nl +:+ body) as ->.
  { destruct h as [|c h]; [discriminate|].
    simpl in Hh. apply andb_prop in Hh as [Hc _].
    rewrite append_cons. now apply trimStart_word_char. }
  rewrite trimEnd_word_app by assumption.
  unfold Js.nl. rewrite append_cons, append_empty_l.
  rewrite trimEnd_line_break.
  destruct (Js.is_empty (Js.trimEnd body)) eqn:E.
  - rewrite split_word_app by assumption. simpl.
    rewrite append_empty_r. destruct (Js.trimEnd body); [reflexivity|discriminate].
  - rewrite split_word_app by assumption. simpl.
    rewrite append_empty_r. f_equal.
    destruct (split_not_nil "010" (Js.trimEnd body)) as (w & ws & Hs).
    pose proof (join_split "010" (Js.trimEnd body)) as Hj.
    rewrite Hs in *. exact Hj.
Qed.

Variable sanitizePath : string -> option PathSanitizeOptions -> JsError + string.
Context {W : Type} (env : Env W).

(** Rewording the tip reports what git prints on the read back: when
    the amend and the read back both resolve, the result carries the
    hash printed and the message printed, without trailing white
    space. *)
Lemma guided_tip_reword_run (input : GitRewordInput) (context : LogicContext)
  (targetPath : string) (w w2 w3 : W) (out err errc h body : string) :
  commitRefOf input = "HEAD" ->
  Guided.sanitizedTarget sanitizePath input context = inr targetPath ->
  env_exec env (amendCommand targetPath (sanitizeMessage (newMessage input)))
    (env_exec env (logMessageCommand targetPath "HEAD") w).2
    = (Resolved out err, w2) ->
  env_exec env (confirmCommand targetPath) w2
    = (Resolved (h +:+ Js.nl +:+ body) errc, w3) ->
  Js.is_empty h = false -> ascii_word h = true ->
  exists original,
    outcome (run env (Guided.rewordGitCommit sanitizePath input context) w)
    = Returned {| success := true;
                  message := "Commit message reworded successfully.";
                  originalMessage := Some original;
                  newMessage' := Some (Js.trimEnd body);
                  hash := Some h;
                  rebaseInstructions := None |}.
Proof.
  intros Href Hsan Hamend Hconfirm Hne Hh.
  unfold Guided.rewordGitCommit. rewrite Hsan.
  unfold Guided.rewordBody, readOriginalMessage, amendAndConfirm, execAsync,
    logger, mbind, mret, Prog_bind, Prog_ret.
  fold (commitRefOf input). rewrite Href.
  destruct (decide ("HEAD" = "HEAD")) as [_|Hneq]; [|contradiction].
  simpl.
  destruct (env_exec env (logMessageCommand targetPath "HEAD") w) as [r0 w0].
  simpl in Hamend.
  destruct r0 as [out0 err0|e0]; simpl; rewrite Hamend; simpl;
    destruct (Js.is_empty err); simpl; rewrite Hconfirm; simpl;
    rewrite (parseConfirmation_reads_back h body Hne Hh); simpl;
    eexists; reflexivity.
Qed.

End ReadBack.

(** C3 fails on the code: the sanitizing call leaves the message as it
    is (see [sanitizeMessage_id]), so double quotes in it end the quoted
    shell word early.  Rewording the tip with [say DQ hi DQ] succeeds,
    but git receives, stores and reports [say hi]. *)
Lemma C3_quoted_message_is_not_read_back :
  let msg := "say " +:+ Js.quoted "hi" in
  let input := {| path := "/repo"; commitHash := None; newMessage := msg |} in
  let r := run MiniGit.env
             (Guided.rewordGitCommit MiniGit.keep_path input (MiniGit.session None))
             MiniGit.two_commits in
  sanitizeMessage msg = msg
  /\ commands (trace r)
     = [ logMessageCommand "/repo" "HEAD";
         "git -C " +:+ Js.quoted "/repo" +:+ " commit --amend -m "
           +:+ Js.dq +:+ msg +:+ Js.dq;
         confirmCommand "/repo" ]
  /\ (exists res, outcome r = Returned res
        /\ success res = true
        /\ newMessage' res = Some "say hi"
        /\ Js.trimEnd "say hi" <> Js.trimEnd msg).
Proof.
  intros msg input r. split; [apply sanitizeMessage_id|].
  split; [vm_compute; reflexivity|].
  eexists. split; [vm_compute; reflexivity|].
  repeat split; vm_compute; discriminate.
Qed.

(** ** The working directory *)

(** What line 51 computes on its own: a non-empty [path] wins, then a
    non-empty session directory, then the current directory. *)
Lemma requestedPath_precedence (input : GitRewordInput) (context : LogicContext) :
  requestedPath input context =
    if negb (Js.is_empty (path input)) then path input
    else match getWorkingDirectory context () with
         | Some dir => if Js.is_empty dir then "." else dir
         | None => "."
         end.
Proof.
  unfold requestedPath, Js.or.
  destruct (Js.is_empty (path input)); reflexivity.
Qed.

(** C4 fails on the code: the schema fills an absent [path] with [.],
    which is truthy, so the session's directory is never consulted.  A
    request without a path, in a session whose working directory is
    [/srv/project], is run in [.]. *)
Lemma C4_absent_path_ignores_session_directory :
  let raw := {| arg_path := None; arg_commitHash := None;
                arg_newMessage := Some "new msg" |} in
  let context := MiniGit.session (Some "/srv/project") in
  exists input,
    GitRewordInputSchema raw = Some input
    /\ path input = "."
    /\ requestedPath input context = "."
    /\ Guided.sanitizedTarget MiniGit.keep_path input context = inr "."
    /\ HeadOnly.sanitizedTarget MiniGit.keep_path input context = inr ".".
Proof.
  intros raw context. eexists. split; [reflexivity|].
  repeat split.
Qed.

(** The same for every validated request that carries no path. *)
Lemma absent_path_resolves_to_dot
  (h m : option string) (context : LogicContext) (input : GitRewordInput) :
  GitRewordInputSchema {| arg_path := None; arg_commitHash := h; arg_newMessage := m |}
    = Some input ->
  requestedPath input context = ".".
Proof.
  unfold GitRewordInputSchema. simpl.
  destruct h as [h|]; simpl.
  - destruct (min1 h); simpl; [|discriminate].
    destruct (m ≫= min1); simpl; [|discriminate].
    intros [= <-]. reflexivity.
  - destruct (m ≫= min1); simpl; [|discriminate].
    intros [= <-]. reflexivity.
Qed.

(** ** Failure translation *)

(** The text that is classified: stderr, else stdout, else the message. *)
Lemma errorMessageOf_priority (error : JsError) :
  errorMessageOf error =
    if Js.truthy (err_stderr error) then default "" (err_stderr error)
    else if Js.truthy (err_stdout error) then default "" (err_stdout error)
    else err_message error.
Proof.
  unfold errorMessageOf, Js.or, Js.truthy.
  destruct (err_stderr error) as [s|]; [destruct s|];
    (destruct (err_stdout error) as [o|]; [destruct o|]);
    simpl; try reflexivity; destruct (err_message error); reflexivity.
Qed.

(** Translation is total, and a text matching neither rule becomes
    [INTERNAL_ERROR]. *)
Lemma translateFailure_unmatched (targetPath : string) (error : JsError) :
  Js.includes (Js.toLowerCase (errorMessageOf error)) "not a git repository" = false ->
  Js.includes (errorMessageOf error) "no changes" = false ->
  translateFailure targetPath error
  = McpError INTERNAL_ERROR
      ("Failed to reword commit. Error: " +:+ errorMessageOf error).
Proof.
  intros H1 H2. unfold translateFailure. now rewrite H1, H2.
Qed.

(** C5 fails on the code: the repository test lowers the text first, the
    no-changes test does not.  A failure whose stderr reads
    [error: No changes] is translated to [INTERNAL_ERROR], although its
    lowered text contains [no changes]. *)
Lemma C5_no_changes_match_is_case_sensitive :
  let error := {| err_code := None;
                  err_message := "Command failed";
                  err_stderr := Some "error: No changes";
                  err_stdout := Some "" |} in
  Js.includes (Js.toLowerCase (errorMessageOf error)) "no changes" = true
  /\ translateFailure "/repo" error
     = McpError INTERNAL_ERROR "Failed to reword commit. Error: error: No changes"
  /\ err_code (translateFailure "/repo" error) <> Some VALIDATION_ERROR
  /\ err_code
       (translateFailure "/repo"
          {| err_code := None; err_message := "Command failed";
             err_stderr := Some "fatal: NOT A GIT REPOSITORY"; err_stdout := Some "" |})
     = Some NOT_FOUND.
Proof.
  intros error. repeat split; vm_compute; first [reflexivity | discriminate].
Qed.

(** ** Failures on the way to the advice *)

Section Failures.

Variable sanitizePath : string -> option PathSanitizeOptions -> JsError + string.
Context {W : Type} (env : Env W).

(** When the parent cannot be resolved, the validation error of lines
    94-98 is caught by the outer [catch] and translated again. *)
Lemma guided_parent_failure_run (input : GitRewordInput) (context : LogicContext)
  (targetPath : string) (w w1 : W) (e : JsError) :
  commitRefOf input <> "HEAD" ->
  Guided.sanitizedTarget sanitizePath input context = inr targetPath ->
  env_exec env (revParseParentCommand targetPath (commitRefOf input))
    (env_exec env (logMessageCommand targetPath (commitRefOf input)) w).2
    = (Rejected e, w1) ->
  outcome (run env (Guided.rewordGitCommit sanitizePath input context) w)
  = Thrown (translateFailure targetPath (parentNotFound (commitRefOf input))).
Proof.
  intros Href Hsan Hparent.
  unfold Guided.rewordGitCommit. rewrite Hsan.
  unfold Guided.rewordBody, Guided.historicCommit, Guided.resolveParent,
    readOriginalMessage, onFailure, execAsync, logger,
    mbind, mret, Prog_bind, Prog_ret.
  fold (commitRefOf input).
  destruct (decide (commitRefOf input = "HEAD")) as [Heq|_]; [contradiction|].
  simpl.
  destruct (env_exec env (logMessageCommand targetPath (commitRefOf input)) w)
    as [[out0 err0|e0] w0]; simpl in *; rewrite Hparent; reflexivity.
Qed.

End Failures.

(** C6 fails on the code: rewording the root commit [a1] of a two-commit
    repository by its hash ends in [INTERNAL_ERROR].  The
    [VALIDATION_ERROR] raised where the parent is resolved is caught by
    the operation's own outer handler and wrapped. *)
Lemma C6_unresolved_parent_ends_in_internal_error :
  let input := {| path := "/repo"; commitHash := Some "a1"; newMessage := "new msg" |} in
  let r := run MiniGit.env
             (Guided.rewordGitCommit MiniGit.keep_path input (MiniGit.session None))
             MiniGit.two_commits in
  (exists e, env_exec MiniGit.env (revParseParentCommand "/repo" "a1")
               MiniGit.two_commits = (Rejected e, MiniGit.two_commits))
  /\ outcome r
     = Thrown (McpError INTERNAL_ERROR
                 "Failed to reword commit. Error: Could not find parent commit for a1. This might be the root commit or an invalid commit hash.")
  /\ verdict (outcome r) = (None, Some INTERNAL_ERROR)
  /\ verdict (outcome r) <> (None, Some VALIDATION_ERROR).
Proof.
  intros input r. split; [eexists; vm_compute; reflexivity|].
  repeat split; vm_compute; first [reflexivity | discriminate].
Qed.

(** ** The best-effort read of the original message *)

Section BestEffortRead.

Variable sanitizePath : string -> option PathSanitizeOptions -> JsError + string.
Context {W : Type} (env : Env W).




End BestEffortRead.


(** ** Stash conflicts *)

Section RunFacts.

Context {W : Type} (env : Env W).

Lemma run_bind_outcome {A B} (p : Prog A) (f : A -> Prog B) (w : W) :
  outcome (run env (bind p f) w) =
    match outcome (run env p w) with
    | Returned a => outcome (run env (f a) (final (run env p w)))
    | Thrown e => Thrown e
    end.
Proof.
  revert w. induction p as [| |c k IH|g d k IH|g k IH|k IH|l m k IH];
    intros w; simpl; try reflexivity.
  - destruct (env_exec env c w). simpl. apply IH.
  - destruct (env_writeFile env g d w). simpl. apply IH.
  - destruct (env_unlink env g w). simpl. apply IH.
  - destruct (env_now env w). simpl. apply IH.
  - apply IH.
Qed.

Lemma run_try_catch_returned {A} (p : Prog A) (h : JsError -> Prog A) (w : W) (a : A) :
  outcome (run env p w) = Returned a ->
  outcome (run env (try_catch p h) w) = Returned a.
Proof.
  revert w. induction p as [| |c k IH|g d k IH|g k IH|k IH|l m k IH];
    intros w; simpl; try done.
  - destruct (env_exec env c w). simpl. apply IH.
  - destruct (env_writeFile env g d w). simpl. apply IH.
  - destruct (env_unlink env g w). simpl. apply IH.
  - destruct (env_now env w). simpl. apply IH.
  - apply IH.
Qed.

End RunFacts.

Section StashConflicts.

Variable conflictMarker : string -> option ConflictDescriptor.
Variable stashMessage : StashMode -> CommandOutcome -> string.

(** The descriptors are the marker lines, one for one and in order. *)
Lemma parseConflicts_per_marker (o : CommandOutcome) :
  Forall2 (fun d line => conflictMarker line = Some d)
    (parseConflicts conflictMarker o)
    (filter (fun line => is_Some (conflictMarker line)) (combinedLines o)).
Proof.
  unfold parseConflicts.
  induction (combinedLines o) as [|line lines IH]; simpl; [constructor|].
  rewrite filter_cons.
  destruct (conflictMarker line) as [d|] eqn:E.
  - rewrite decide_True by eauto. constructor; auto.
  - rewrite decide_False by (intros [? ?]; discriminate). exact IH.
Qed.

Lemma parseConflicts_relative (o : CommandOutcome) :
  (forall line d, conflictMarker line = Some d -> relativePath (filePath d) = true) ->
  Forall (fun d => relativePath (filePath d) = true) (parseConflicts conflictMarker o).
Proof.
  intros Hrel. unfold parseConflicts.
  induction (combinedLines o) as [|line lines IH]; simpl; [constructor|].
  destruct (conflictMarker line) as [d|] eqn:E; simpl; [|exact IH].
  constructor; eauto.
Qed.

Context {W RequestContext : Type} (env : Env W).
Variable createRequestContext : string -> RequestContext -> RequestContext.
Variable handleError : JsError -> JsError.
Variable gitStashLogic : GitStashInput -> LogicContext -> Prog GitStashResult.
Variable stringifyStash : GitStashResult -> string.

(** The handler hands a returned result on as JSON, whatever its flag. *)
Lemma gitStashHandler_returns (getWd : option string -> option string)
  (getSid : RequestContext -> option string)
  (toolInput : GitStashInput) (callContext : RequestContext) (w : W)
  (res : GitStashResult) :
  outcome (run env
             (gitStashLogic toolInput
                (logicContextFor getWd getSid
                   (createRequestContext
                      ("tool:git_stash:" +:+ modeName (mode toolInput)) callContext)))
             w) = Returned res ->
  outcome (run env
             (gitStashHandler createRequestContext handleError gitStashLogic
                stringifyStash getWd getSid toolInput callContext) w)
  = Returned {| content := [jsonContent (stringifyStash res)] |}.
Proof.
  intros Hlogic.
  unfold gitStashHandler, tryCatch, GitStash_TOOL_NAME, logger,
    mbind, mret, Prog_bind, Prog_ret.
  simpl. apply run_try_catch_returned.
  rewrite run_bind_outcome.
  match goal with
  | |- context [outcome (run env ?p w)] =>
      replace (outcome (run env p w)) with (Returned res)
        by (symmetry; exact Hlogic)
  end.
  destruct (stash_success res); reflexivity.
Qed.

(** C8: when the output of a stash apply or pop carries conflict
    markers, the result has [success = false], no [errorKind], and the
    non-empty sequence of descriptors read off the marker lines, one per
    line and in order, each naming a repository-relative path; and the
    registered handler returns that result as JSON instead of
    throwing. *)
Theorem C8_stash_conflicts_are_advisory
  (m : StashMode) (o : CommandOutcome)
  (getWd : option string -> option string) (getSid : RequestContext -> option string)
  (toolInput : GitStashInput) (callContext : RequestContext) (w : W)
  (Hmode : m = ModeApply \/ m = ModePop)
  (Hmarkers : Exists (fun line => is_Some (conflictMarker line)) (combinedLines o))
  (Hrel : forall line d, conflictMarker line = Some d -> relativePath (filePath d) = true)
  (Hlogic : outcome (run env
                       (gitStashLogic toolInput
                          (logicContextFor getWd getSid
                             (createRequestContext
                                ("tool:git_stash:" +:+ modeName (mode toolInput))
                                callContext))) w)
            = Returned (stashOutcomeResult conflictMarker stashMessage m o)) :
  let res := stashOutcomeResult conflictMarker stashMessage m o in
  stash_success res = false
  /\ errorKind res = None
  /\ (exists d ds, conflicts res = Some (d :: ds)
        /\ Forall2 (fun d line => conflictMarker line = Some d) (d :: ds)
             (filter (fun line => is_Some (conflictMarker line)) (combinedLines o))
        /\ Forall (fun d => relativePath (filePath d) = true) (d :: ds))
  /\ outcome (run env
                (gitStashHandler createRequestContext handleError gitStashLogic
                   stringifyStash getWd getSid toolInput callContext) w)
     = Returned {| content := [jsonContent (stringifyStash res)] |}.
Proof.
  intros res.
  assert (Hfound : exists d ds, parseConflicts conflictMarker o = d :: ds).
  { pose proof (parseConflicts_per_marker o) as Hper.
    destruct (parseConflicts conflictMarker o) as [|d ds]; [|eauto].
    apply Forall2_nil_inv_l in Hper.
    apply Exists_exists in Hmarkers as (line & Hin & Hsome).
    assert (line ∈ filter (fun line => is_Some (conflictMarker line)) (combinedLines o))
      as Hmem by (apply list_elem_of_filter; split; assumption).
    rewrite Hper in Hmem. inversion Hmem. }
  destruct Hfound as (d & ds & Hparse).
  assert (Hdetect : detectsConflicts m = true) by (destruct Hmode; subst; reflexivity).
  assert (Hres : res = {| stash_success := false;
                          stash_result_message := stashMessage m o;
                          errorKind := None;
                          conflicts := Some (d :: ds) |}).
  { subst res. unfold stashOutcomeResult. rewrite Hdetect, Hparse. reflexivity. }
  repeat split.
  - now rewrite Hres.
  - now rewrite Hres.
  - exists d, ds. split; [now rewrite Hres|]. split.
    + rewrite <- Hparse. apply parseConflicts_per_marker.
    + rewrite <- Hparse. now apply parseConflicts_relative.
  - now apply gitStashHandler_returns.
Qed.

End StashConflicts.

Lemma mergeConflictLine_relative (line : string) (d : ConflictDescriptor) :
  GitOutput.mergeConflictLine line = Some d -> relativePath (filePath d) = true.
Proof.
  unfold GitOutput.mergeConflictLine.
  destruct (GitOutput.dropPrefix _ line) as [p|]; simpl; [|discriminate].
  destruct (relativePath p) eqn:E; [|discriminate].
  intros [= <-]. exact E.
Qed.

(** C8 on a concrete output: a pop that conflicts in two files. *)
Lemma C8_stash_conflicts_witness :
  let res := stashOutcomeResult GitOutput.mergeConflictLine GitOutput.describe
               ModePop GitOutput.conflicting_pop in
  stash_success res = false
  /\ errorKind res = None
  /\ conflicts res = Some [ {| filePath := "src/index.ts"; kind := ConflictContent |};
                            {| filePath := "README.md"; kind := ConflictContent |} ]
  /\ exists json,
       outcome (run GitOutput.conflicted
                  (gitStashHandler (fun _ (c : unit) => c) (fun e => e)
                     GitOutput.stashLogic (fun _ => json)
                     (fun _ => None) (fun _ => Some "s1") GitOutput.pop_latest tt) tt)
       = Returned {| content := [jsonContent json] |}.
Proof.
  intros res.
  assert (Hmarkers : Exists (fun line => is_Some (GitOutput.mergeConflictLine line))
                       (combinedLines GitOutput.conflicting_pop)).
  { apply Exists_cons_tl, Exists_cons_hd. vm_compute. eauto. }
  destruct (C8_stash_conflicts_are_advisory
              GitOutput.mergeConflictLine GitOutput.describe GitOutput.conflicted
              (fun _ (c : unit) => c) (fun e => e)
              GitOutput.stashLogic (fun _ => "{}")
              ModePop GitOutput.conflicting_pop
              (fun _ => None) (fun _ => Some "s1") GitOutput.pop_latest tt tt
              (or_intror eq_refl) Hmarkers mergeConflictLine_relative eq_refl)
    as (Hs & He & _ & Hh).
  split; [exact Hs|]. split; [exact He|]. split; [vm_compute; reflexivity|].
  exists "{}". exact Hh.
Defined.

(** ** The history is left alone *)

Section Frame.

Variable sanitizePath : string -> option PathSanitizeOptions -> JsError + string.





End Frame.






(** ** Registration before and after initialization *)

Section RegistrationFacts.

Context {McpServer RequestContext : Type}.
Variable server_tool :
  forall Input : Type, string -> string ->
    (Input -> RequestContext -> Prog CallToolResult) ->
    McpServer -> JsError + McpServer.
Variable createRequestContext : string -> RequestContext -> RequestContext.
Variable handleError : JsError -> JsError.

(** C10: with either state accessor still undefined, registering the
    reword tool or the stash tool throws and leaves the server as it
    was, [server.tool] not being called; once the matching initializer
    has run, registration is the call of [server.tool] for the tool's
    name with its handler, under [ErrorHandler.tryCatch]. *)
Theorem C10_registration_requires_initialized_accessors
  (rewordGitCommit : GitRewordInput -> LogicContext -> Prog GitRewordResult)
  (stringifyReword : GitRewordResult -> string)
  (gitStashLogic : GitStashInput -> LogicContext -> Prog GitStashResult)
  (stringifyStash : GitStashResult -> string)
  (server : McpServer) (before : StateAccessors)
  (wd : option GetWorkingDirectoryFn) (sid : option GetSessionIdFn)
  (getWdFn : GetWorkingDirectoryFn) (getSidFn : GetSessionIdFn) :
  let rewordNotReady :=
    (Thrown (PlainError
               "State accessors for git_reword must be initialized before registration."),
     server) in
  let stashNotReady :=
    (Thrown (PlainError
               "State accessors for git_stash must be initialized before registration."),
     server) in
  let registerReword :=
    registerGitRewordTool server_tool createRequestContext handleError
      rewordGitCommit stringifyReword in
  let registerStash :=
    registerGitStashTool server_tool createRequestContext handleError
      gitStashLogic stringifyStash in
  registerReword uninitialized server = rewordNotReady
  /\ registerReword (mkAccessors None sid) server = rewordNotReady
  /\ registerReword (mkAccessors wd None) server = rewordNotReady
  /\ registerStash uninitialized server = stashNotReady
  /\ registerStash (mkAccessors None sid) server = stashNotReady
  /\ registerStash (mkAccessors wd None) server = stashNotReady
  /\ registerReword (initializeGitRewordStateAccessors getWdFn getSidFn before) server
     = tryCatchRegistration handleError server
         (server_tool GitRewordInput "git_reword" GitReword_TOOL_DESCRIPTION
            (gitRewordHandler createRequestContext handleError rewordGitCommit
               stringifyReword getWdFn getSidFn) server)
  /\ registerStash (initializeGitStashStateAccessors getWdFn getSidFn before) server
     = tryCatchRegistration handleError server
         (server_tool GitStashInput "git_stash" GitStash_TOOL_DESCRIPTION
            (gitStashHandler createRequestContext handleError gitStashLogic
               stringifyStash getWdFn getSidFn) server).
Proof.
  intros. subst registerReword registerStash rewordNotReady stashNotReady.
  unfold registerGitRewordTool, registerGitStashTool, uninitialized.
  repeat split; simpl; try reflexivity.
  all: destruct wd; reflexivity.
Qed.

End RegistrationFacts.

(** * Further properties of the code *)

(** ** The input schema (part_000, lines 9-29) *)

Lemma min1_some (s t : string) : min1 s = Some t -> t = s /\ Js.is_empty s = false.
Proof.
  unfold min1. destruct (Js.is_empty s); [discriminate|].
  intros [= <-]. auto.
Qed.

Lemma schema_output_fields
  (raw : GitRewordArgs) (input : GitRewordInput)
  (Hvalid : GitRewordInputSchema raw = Some input) :
  Js.is_empty (path input) = false
  /\ Js.is_empty (newMessage input) = false
  /\ (forall h, commitHash input = Some h -> Js.is_empty h = false)
  /\ path input = default "." (arg_path raw)
  /\ commitHash input = arg_commitHash raw
  /\ arg_newMessage raw = Some (newMessage input).
Proof.
  unfold GitRewordInputSchema in Hvalid.
  destruct raw as [p h m]; simpl in *.
  destruct m as [m|]; simpl in Hvalid.
  2: { destruct p as [p|]; simpl in Hvalid; [destruct (min1 p)|]; simpl in Hvalid;
       (destruct h as [h|]; simpl in Hvalid; [destruct (min1 h)|]); simpl in Hvalid;
       discriminate. }
  destruct (min1 m) as [m'|] eqn:Em.
  2: { destruct p as [p|]; simpl in Hvalid; [destruct (min1 p)|]; simpl in Hvalid;
       (destruct h as [h|]; simpl in Hvalid; [destruct (min1 h)|]); simpl in Hvalid;
       discriminate. }
  apply min1_some in Em as [-> Hm].
  destruct h as [h|]; simpl in Hvalid.
  - destruct (min1 h) as [h'|] eqn:Eh.
    2: { destruct p as [p|]; simpl in Hvalid; [destruct (min1 p)|];
         simpl in Hvalid; discriminate. }
    apply min1_some in Eh as [-> Hh].
    destruct p as [p|]; simpl in Hvalid.
    + destruct (min1 p) as [p'|] eqn:Ep; simpl in Hvalid; [|discriminate].
      apply min1_some in Ep as [-> Hp].
      injection Hvalid as <-. simpl. repeat split; auto.
      intros ? [= <-]. exact Hh.
    + injection Hvalid as <-. simpl. repeat split; auto.
      intros ? [= <-]. exact Hh.
  - destruct p as [p|]; simpl in Hvalid.
    + destruct (min1 p) as [p'|] eqn:Ep; simpl in Hvalid; [|discriminate].
      apply min1_some in Ep as [-> Hp].
      injection Hvalid as <-. simpl. repeat split; auto. discriminate.
    + injection Hvalid as <-. simpl. repeat split; auto. discriminate.
Qed.

(** X1: a validated input has a non-empty path, a non-empty message, and
    a commit hash that is absent or non-empty; its path is the one sent
    or [.] when none was sent, its hash and message are the ones sent. *)
Theorem X1_validated_input_is_well_formed
  (raw : GitRewordArgs) (input : GitRewordInput)
  (Hvalid : GitRewordInputSchema raw = Some input) :
  Js.is_empty (path input) = false
  /\ Js.is_empty (newMessage input) = false
  /\ (forall h, commitHash input = Some h -> Js.is_empty h = false)
  /\ path input = default "." (arg_path raw)
  /\ commitHash input = arg_commitHash raw
  /\ arg_newMessage raw = Some (newMessage input).
Proof. exact (schema_output_fields raw input Hvalid). Qed.

Lemma X1_validated_input_witness :
  let raw := {| arg_path := None; arg_commitHash := Some "80e2f25";
                arg_newMessage := Some "fix: resolve authentication bug in login flow" |} in
  let input := {| path := "."; commitHash := Some "80e2f25";
                  newMessage := "fix: resolve authentication bug in login flow" |} in
  Js.is_empty (path input) = false
  /\ Js.is_empty (newMessage input) = false
  /\ (forall h, commitHash input = Some h -> Js.is_empty h = false)
  /\ path input = default "." (arg_path raw)
  /\ commitHash input = arg_commitHash raw
  /\ arg_newMessage raw = Some (newMessage input).
Proof.
  intros raw input.
  exact (X1_validated_input_is_well_formed raw input eq_refl).
Defined.

(** X2: validation accepts exactly the arguments whose message is
    present and non-empty and whose path and hash are absent or
    non-empty; in particular an empty string is rejected in each of the
    three places, and a missing message is rejected. *)
Theorem X2_schema_acceptance (raw : GitRewordArgs) :
  is_Some (GitRewordInputSchema raw) <->
    arg_path raw <> Some ""
    /\ arg_commitHash raw <> Some ""
    /\ exists m, arg_newMessage raw = Some m /\ m <> "".
Proof.
  destruct raw as [p h m]. unfold GitRewordInputSchema, min1. simpl. split.
  - intros [input H].
    destruct p as [[|a p]|]; simpl in H; try discriminate;
      destruct h as [[|b h]|]; simpl in H; try discriminate;
      destruct m as [[|c m]|]; simpl in H; try discriminate;
      (split; [discriminate|]; split; [discriminate|]; eexists; split;
       [reflexivity | discriminate]).
  - intros (Hp & Hh & m' & -> & Hm).
    destruct m' as [|c m']; [contradiction|].
    destruct p as [[|a p]|]; try contradiction;
      destruct h as [[|b h]|]; try contradiction; simpl; eauto.
Qed.

(** X3: validating the arguments that a validated input stands for
    gives the input back. *)
Theorem X3_validation_is_idempotent
  (raw : GitRewordArgs) (input : GitRewordInput)
  (Hvalid : GitRewordInputSchema raw = Some input) :
  GitRewordInputSchema (argsOf input) = Some input.
Proof.
  destruct (schema_output_fields raw input Hvalid) as (Hp & Hm & Hh & _).
  destruct input as [p h m]. unfold GitRewordInputSchema, argsOf, min1. simpl in *.
  rewrite Hp, Hm. simpl.
  destruct h as [h|]; simpl; [|reflexivity].
  rewrite (Hh h eq_refl). reflexivity.
Qed.

Lemma X3_validation_is_idempotent_witness :
  GitRewordInputSchema
    (argsOf {| path := "."; commitHash := None; newMessage := "feat: add auth" |})
  = Some {| path := "."; commitHash := None; newMessage := "feat: add auth" |}.
Proof.
  exact (X3_validation_is_idempotent
           {| arg_path := None; arg_commitHash := None;
              arg_newMessage := Some "feat: add auth" |}
           {| path := "."; commitHash := None; newMessage := "feat: add auth" |}
           eq_refl).
Defined.

(** X4: for a validated request the directory handed to the path
    sanitizer is the validated [path], in both revisions; what the
    session's [getWorkingDirectory] would answer has no influence. *)
Theorem X4_validated_request_runs_in_its_path
  (sanitizePath : string -> option PathSanitizeOptions -> JsError + string)
  (raw : GitRewordArgs) (input : GitRewordInput) (context : LogicContext)
  (Hvalid : GitRewordInputSchema raw = Some input) :
  requestedPath input context = path input
  /\ Guided.sanitizedTarget sanitizePath input context
     = sanitizePath (path input) (Some {| allowAbsolute := true |})
  /\ HeadOnly.sanitizedTarget sanitizePath input context
     = sanitizePath (path input) None.
Proof.
  destruct (schema_output_fields raw input Hvalid) as (Hp & _).
  assert (requestedPath input context = path input) as E.
  { rewrite requestedPath_precedence, Hp. reflexivity. }
  unfold Guided.sanitizedTarget, HeadOnly.sanitizedTarget. now rewrite E.
Qed.

Lemma X4_validated_request_witness :
  let input := {| path := "/srv/app"; commitHash := None; newMessage := "docs: readme" |} in
  let context := MiniGit.session (Some "/home/me/other") in
  requestedPath input context = "/srv/app"
  /\ Guided.sanitizedTarget MiniGit.keep_path input context = inr "/srv/app"
  /\ HeadOnly.sanitizedTarget MiniGit.keep_path input context = inr "/srv/app".
Proof.
  intros input context.
  exact (X4_validated_request_runs_in_its_path MiniGit.keep_path
           {| arg_path := Some "/srv/app"; arg_commitHash := None;
              arg_newMessage := Some "docs: readme" |}
           input context eq_refl).
Defined.

(** ** The message sanitizer (part_000, lines 74 and 287) *)

(** X5: the sanitizing call returns every message unchanged, so the
    amend command carries the caller's message verbatim between its
    double quotes. *)
Theorem X5_sanitizer_changes_nothing (targetPath m : string) :
  sanitizeMessage m = m
  /\ amendCommand targetPath (sanitizeMessage m)
     = git_C targetPath +:+ " commit --amend -m " +:+ Js.dq +:+ m +:+ Js.dq.
Proof.
  split; [apply sanitizeMessage_id|].
  now rewrite sanitizeMessage_id.
Qed.

(** ** The shape of every run of [rewordGitCommit] *)

(** Unfolds a reword down to its calls. *)
Ltac open_reword :=
  unfold Guided.rewordGitCommit, HeadOnly.rewordGitCommit,
    Guided.rewordBody, HeadOnly.rewordBody, Guided.historicCommit,
    Guided.resolveParent, readOriginalMessage, amendAndConfirm, onFailure,
    execAsync, fs_writeFile, fs_unlink_quiet, Date_now, logger,
    mbind, mret, Prog_bind, Prog_ret.

Section Runs.

Variable sanitizePath : string -> option PathSanitizeOptions -> JsError + string.
Context {W : Type} (env : Env W).

(** X6: the git commands of a reword, in order.  First revision: the
    message read, then for the tip the amend and (when the amend
    resolves) the read back, for any other reference the parent
    resolution, which is run even when the message read has failed.
    Second revision: the message read only when a hash was given, then
    for the tip the amend and the read back, and nothing more for any
    other reference.  No run makes more than three calls, and none when
    the path is rejected. *)
Theorem X6_commands_of_a_reword
  (input : GitRewordInput) (context : LogicContext) (w : W) :
  let ref := commitRefOf input in
  let msg := sanitizeMessage (newMessage input) in
  match Guided.sanitizedTarget sanitizePath input context with
  | inl _ =>
      trace (run env (Guided.rewordGitCommit sanitizePath input context) w) = []
  | inr t =>
      let cmds :=
        commands (trace (run env (Guided.rewordGitCommit sanitizePath input context) w)) in
      if bool_decide (ref = "HEAD") then
        cmds = [logMessageCommand t ref; amendCommand t msg]
        \/ cmds = [logMessageCommand t ref; amendCommand t msg; confirmCommand t]
      else
        cmds = [logMessageCommand t ref; revParseParentCommand t ref]
  end
  /\
  match HeadOnly.sanitizedTarget sanitizePath input context with
  | inl _ =>
      trace (run env (HeadOnly.rewordGitCommit sanitizePath input context) w) = []
  | inr t =>
      let cmds :=
        commands (trace (run env (HeadOnly.rewordGitCommit sanitizePath input context) w)) in
      if Js.truthy (commitHash input) then
        if bool_decide (ref = "HEAD") then
          cmds = [logMessageCommand t ref; amendCommand t msg]
          \/ cmds = [logMessageCommand t ref; amendCommand t msg; confirmCommand t]
        else
          cmds = [logMessageCommand t ref]
      else
        cmds = [amendCommand t msg]
        \/ cmds = [amendCommand t msg; confirmCommand t]
  end.
Proof.
  intros ref msg. subst ref msg. split.
  - open_reword. fold (commitRefOf input).
    destruct (Guided.sanitizedTarget sanitizePath input context) as [e|t];
      [reflexivity|].
    destruct (decide (commitRefOf input = "HEAD")) as [Heq|Hne].
    + rewrite (bool_decide_eq_true_2 _ Heq). simpl. repeat answer; auto.
    + rewrite (bool_decide_eq_false_2 _ Hne). simpl. repeat answer; auto.
  - open_reword. fold (commitRefOf input).
    destruct (HeadOnly.sanitizedTarget sanitizePath input context) as [e|t];
      [reflexivity|].
    destruct (Js.truthy (commitHash input));
      destruct (bool_decide (commitRefOf input = "HEAD"));
      simpl; repeat answer; auto.
Qed.

(** X7: what a reword throws.  When the path sanitizer rejects the
    path, its error is thrown as it is and nothing has been called.
    Otherwise every error thrown, whatever failed (the amend, the read
    back, the parent resolution, the temporary file), is the translation
    made by the outer handler: an [McpError] carrying one of the three
    codes, never the raw error of the failed call. *)
Theorem X7_thrown_errors_are_translated
  (input : GitRewordInput) (context : LogicContext) (w : W) (err : JsError) :
  let translated sanitized :=
    match sanitized with
    | inl e => err = e
    | inr t =>
        exists e0, err = translateFailure t e0
          /\ (err_code err = Some NOT_FOUND \/ err_code err = Some VALIDATION_ERROR
              \/ err_code err = Some INTERNAL_ERROR)
          /\ err_stderr err = None /\ err_stdout err = None
    end in
  (outcome (run env (Guided.rewordGitCommit sanitizePath input context) w) = Thrown err ->
   translated (Guided.sanitizedTarget sanitizePath input context))
  /\
  (outcome (run env (HeadOnly.rewordGitCommit sanitizePath input context) w) = Thrown err ->
   translated (HeadOnly.sanitizedTarget sanitizePath input context)).
Proof.
  assert (Hcode : forall t e0,
             (err_code (translateFailure t e0) = Some NOT_FOUND
              \/ err_code (translateFailure t e0) = Some VALIDATION_ERROR
              \/ err_code (translateFailure t e0) = Some INTERNAL_ERROR)
             /\ err_stderr (translateFailure t e0) = None
             /\ err_stdout (translateFailure t e0) = None).
  { intros t e0. unfold translateFailure.
    destruct (Js.includes (Js.toLowerCase (errorMessageOf e0)) "not a git repository");
      [|destruct (Js.includes (errorMessageOf e0) "no changes")];
      simpl; auto. }
  intros translated. subst translated. split.
  - open_reword. fold (commitRefOf input).
    destruct (Guided.sanitizedTarget sanitizePath input context) as [e|t];
      [simpl; now intros [= <-]|].
    destruct (decide (commitRefOf input = "HEAD"));
      simpl; repeat answer; intros [= <-];
      eexists; (split; [reflexivity | apply Hcode]).
  - open_reword. fold (commitRefOf input).
    destruct (HeadOnly.sanitizedTarget sanitizePath input context) as [e|t];
      [simpl; now intros [= <-]|].
    destruct (Js.truthy (commitHash input));
      destruct (bool_decide (commitRefOf input = "HEAD"));
      simpl; repeat answer; intros [= <-];
      eexists; (split; [reflexivity | apply Hcode]).
Qed.

End Runs.

(** X7 outside a repository: the amend fails and the caller gets
    [NOT_FOUND] naming the directory, in both revisions. *)
Lemma X7_thrown_errors_witness :
  let input := {| path := "/elsewhere"; commitHash := None; newMessage := "new msg" |} in
  let err := McpError NOT_FOUND "Path is not a Git repository: /elsewhere" in
  outcome (run MiniGit.env
             (Guided.rewordGitCommit MiniGit.keep_path input (MiniGit.session None))
             MiniGit.two_commits) = Thrown err
  /\ outcome (run MiniGit.env
                (HeadOnly.rewordGitCommit MiniGit.keep_path input (MiniGit.session None))
                MiniGit.two_commits) = Thrown err
  /\ (exists e0, err = translateFailure "/elsewhere" e0
        /\ (err_code err = Some NOT_FOUND \/ err_code err = Some VALIDATION_ERROR
            \/ err_code err = Some INTERNAL_ERROR)
        /\ err_stderr err = None /\ err_stdout err = None).
Proof.
  intros input err.
  assert (HG : outcome (run MiniGit.env
                          (Guided.rewordGitCommit MiniGit.keep_path input
                             (MiniGit.session None)) MiniGit.two_commits) = Thrown err)
    by (vm_compute; reflexivity).
  assert (HH : outcome (run MiniGit.env
                          (HeadOnly.rewordGitCommit MiniGit.keep_path input
                             (MiniGit.session None)) MiniGit.two_commits) = Thrown err)
    by (vm_compute; reflexivity).
  split; [exact HG|]. split; [exact HH|].
  destruct (X7_thrown_errors_are_translated MiniGit.keep_path MiniGit.env input
              (MiniGit.session None) MiniGit.two_commits err) as [H1 H2].
  pose proof (H2 HH) as _.
  exact (H1 HG).
Defined.

(** Without a hash the reference is the tip. *)
Lemma no_hash_means_tip (input : GitRewordInput) :
  Js.truthy (commitHash input) = false -> commitRefOf input = "HEAD".
Proof.
  unfold commitRefOf, Js.or, Js.truthy.
  destruct (commitHash input) as [s|]; [|reflexivity].
  destruct (Js.is_empty s); [reflexivity | discriminate].
Qed.

Section Hygiene.

Variable sanitizePath : string -> option PathSanitizeOptions -> JsError + string.
Context {W : Type} (env : Env W).

(** X8: the file system is touched only on the way to the advice of the
    first revision, and then by exactly one write of the sanitized
    message to [<targetPath>/.git-reword-message-<clock>] followed by
    one unlink of that same file, whether the write succeeded or not.
    Rewording the tip touches no file, a failed parent resolution
    touches none, and the second revision never does. *)
Theorem X8_temporary_file_is_always_removed
  (input : GitRewordInput) (context : LogicContext) (w : W) :
  match Guided.sanitizedTarget sanitizePath input context with
  | inl _ => True
  | inr t =>
      let files :=
        fileEvents (trace (run env (Guided.rewordGitCommit sanitizePath input context) w)) in
      files = []
      \/ (commitRefOf input <> "HEAD"
          /\ exists clock : Z,
               let file := t +:+ "/.git-reword-message-" +:+ pretty clock in
               files = [ EvWriteFile file (sanitizeMessage (newMessage input));
                         EvUnlink file ])
  end
  /\ fileEvents (trace (run env (HeadOnly.rewordGitCommit sanitizePath input context) w))
     = [].
Proof.
  split.
  - open_reword. fold (commitRefOf input).
    destruct (Guided.sanitizedTarget sanitizePath input context) as [e|t];
      [exact I|].
    destruct (decide (commitRefOf input = "HEAD")) as [Heq|Hne];
      simpl; repeat answer; auto;
      right; (split; [assumption|]); eexists; reflexivity.
  - open_reword. fold (commitRefOf input).
    destruct (HeadOnly.sanitizedTarget sanitizePath input context) as [e|t];
      [reflexivity|].
    destruct (Js.truthy (commitHash input));
      destruct (bool_decide (commitRefOf input = "HEAD"));
      simpl; repeat answer; reflexivity.
Qed.

(** X9: what a returned result tells.  In the first revision a result
    with [success = true] is returned only for the tip, after the amend
    and the read back have both resolved, and carries no rebase
    instructions; a result with [success = false] is returned only for
    another reference, after the message read and the parent resolution
    and nothing else, and carries instructions and the reference as
    [hash].  In the second revision a returned result for another
    reference is the fixed advice for that reference, and a returned
    result for the tip has [success = true]. *)
Theorem X9_returned_results
  (input : GitRewordInput) (context : LogicContext) (w : W) (res : GitRewordResult) :
  (outcome (run env (Guided.rewordGitCommit sanitizePath input context) w) = Returned res ->
   exists t, Guided.sanitizedTarget sanitizePath input context = inr t
     /\ let cmds :=
          commands (trace (run env (Guided.rewordGitCommit sanitizePath input context) w)) in
        let ref := commitRefOf input in
        (success res = true /\ ref = "HEAD"
         /\ cmds = [ logMessageCommand t ref;
                     amendCommand t (sanitizeMessage (newMessage input));
                     confirmCommand t ]
         /\ message res = "Commit message reworded successfully."
         /\ rebaseInstructions res = None)
        \/ (success res = false /\ ref <> "HEAD"
            /\ cmds = [logMessageCommand t ref; revParseParentCommand t ref]
            /\ hash res = Some ref
            /\ newMessage' res = Some (sanitizeMessage (newMessage input))
            /\ is_Some (rebaseInstructions res)))
  /\
  (outcome (run env (HeadOnly.rewordGitCommit sanitizePath input context) w) = Returned res ->
   (success res = true /\ commitRefOf input = "HEAD"
    /\ message res = "Commit message reworded successfully.")
   \/ (commitRefOf input <> "HEAD"
       /\ res = HeadOnly.rebaseAdvice (commitRefOf input))).
Proof.
  split.
  - open_reword. fold (commitRefOf input).
    destruct (Guided.sanitizedTarget sanitizePath input context) as [e|t];
      [discriminate|].
    intros H. exists t. split; [reflexivity|]. revert H.
    destruct (decide (commitRefOf input = "HEAD")) as [Heq|Hne];
      simpl; repeat answer; intros [= <-]; simpl;
      first [ left; repeat split; auto; fail
            | right; repeat split; eauto ].
  - open_reword. fold (commitRefOf input).
    destruct (HeadOnly.sanitizedTarget sanitizePath input context) as [e|t];
      [discriminate|].
    destruct (Js.truthy (commitHash input)) eqn:Ht;
      destruct (bool_decide (commitRefOf input = "HEAD")) eqn:Hd;
      simpl; repeat answer; intros [= <-]; simpl.
    all: first [ left; repeat split; auto;
                 first [ now apply bool_decide_eq_true in Hd
                       | now apply no_hash_means_tip ]
               | right; split; [now apply bool_decide_eq_false in Hd | reflexivity] ].
Qed.

End Hygiene.

(** X9 on a concrete repository: the result returned for the tip. *)
Lemma X9_returned_results_witness :
  let input := {| path := "/repo"; commitHash := Some "HEAD"; newMessage := "new msg" |} in
  commitRefOf input = "HEAD"
  /\ commands (trace (run MiniGit.env
                        (Guided.rewordGitCommit MiniGit.keep_path input
                           (MiniGit.session None)) MiniGit.two_commits))
     = [ logMessageCommand "/repo" "HEAD";
         amendCommand "/repo" (sanitizeMessage "new msg");
         confirmCommand "/repo" ].
Proof.
  intros input.
  destruct (X9_returned_results MiniGit.keep_path MiniGit.env input
              (MiniGit.session None) MiniGit.two_commits
              {| success := true;
                 message := "Commit message reworded successfully.";
                 originalMessage := Some "wip";
                 newMessage' := Some "new msg";
                 hash := Some "2b";
                 rebaseInstructions := None |}) as [HG HH].
  assert (HeadOnly_too := HH eq_refl).
  destruct (HG eq_refl) as (t & Ht & [(_ & Href & Hcmds & _) | (Hs & _)]).
  - injection Ht as <-. split; [exact Href | exact Hcmds].
  - discriminate Hs.
Defined.

(** ** Failures while rewording the tip (part_000, lines 149-211) *)

Section TipFailures.

Variable sanitizePath : string -> option PathSanitizeOptions -> JsError + string.
Context {W : Type} (env : Env W).

(** X10: when the amend is rejected, the operation throws the
    translation of that rejection and stops: the read back is not run
    and the environment is left as the failed amend left it. *)
Theorem X10_failed_amend_stops_the_reword
  (input : GitRewordInput) (context : LogicContext) (t : string)
  (w w2 : W) (e : JsError)
  (Href : commitRefOf input = "HEAD")
  (Hsan : Guided.sanitizedTarget sanitizePath input context = inr t)
  (Hamend : env_exec env (amendCommand t (sanitizeMessage (newMessage input)))
              (env_exec env (logMessageCommand t "HEAD") w).2
            = (Rejected e, w2)) :
  let r := run env (Guided.rewordGitCommit sanitizePath input context) w in
  outcome r = Thrown (translateFailure t e)
  /\ final r = w2
  /\ commands (trace r)
     = [logMessageCommand t "HEAD"; amendCommand t (sanitizeMessage (newMessage input))].
Proof.
  open_reword. fold (commitRefOf input). rewrite Hsan, Href.
  destruct (decide ("HEAD" = "HEAD")) as [_|Hneq]; [|contradiction].
  simpl.
  destruct (env_exec env (logMessageCommand t "HEAD") w) as [[out0 err0|e0] w0];
    simpl in *; rewrite Hamend; simpl; auto.
Qed.

(** X11: when the amend resolves and the read back is then rejected,
    the operation throws the translation of that rejection although the
    amend has been run: all three commands were issued, the environment
    is the one the amend and the failed read back left, and nothing is
    undone. *)
Theorem X11_failed_read_back_after_amend
  (input : GitRewordInput) (context : LogicContext) (t : string)
  (w w2 w3 : W) (out err : string) (e : JsError)
  (Href : commitRefOf input = "HEAD")
  (Hsan : Guided.sanitizedTarget sanitizePath input context = inr t)
  (Hamend : env_exec env (amendCommand t (sanitizeMessage (newMessage input)))
              (env_exec env (logMessageCommand t "HEAD") w).2
            = (Resolved out err, w2))
  (Hconfirm : env_exec env (confirmCommand t) w2 = (Rejected e, w3)) :
  let r := run env (Guided.rewordGitCommit sanitizePath input context) w in
  outcome r = Thrown (translateFailure t e)
  /\ final r = w3
  /\ commands (trace r)
     = [ logMessageCommand t "HEAD";
         amendCommand t (sanitizeMessage (newMessage input));
         confirmCommand t ].
Proof.
  open_reword. fold (commitRefOf input). rewrite Hsan, Href.
  destruct (decide ("HEAD" = "HEAD")) as [_|Hneq]; [|contradiction].
  simpl.
  destruct (env_exec env (logMessageCommand t "HEAD") w) as [[out0 err0|e0] w0];
    simpl in *; rewrite Hamend; simpl;
    destruct (Js.is_empty err); simpl; rewrite Hconfirm; simpl; auto.
Qed.

(** X12: in the first revision every returned result, for the tip or
    not, carries as [originalMessage] the trimmed output of the message
    read when that read resolved. *)
Theorem X12_original_message_is_the_trimmed_read
  (input : GitRewordInput) (context : LogicContext) (t : string)
  (w w1 : W) (out err : string) (res : GitRewordResult)
  (Hsan : Guided.sanitizedTarget sanitizePath input context = inr t)
  (Hread : env_exec env (logMessageCommand t (commitRefOf input)) w
           = (Resolved out err, w1))
  (Hres : outcome (run env (Guided.rewordGitCommit sanitizePath input context) w)
          = Returned res) :
  originalMessage res = Some (Js.trim out).
Proof.
  revert Hres. open_reword. fold (commitRefOf input). rewrite Hsan.
  destruct (decide (commitRefOf input = "HEAD"));
    simpl; rewrite Hread; simpl; repeat answer; intros [= <-]; reflexivity.
Qed.

(** X13: the second revision, given no hash, does not read the tip's
    message: it runs the amend first, and any result it returns has
    [success = true] and the empty string as [originalMessage]. *)
Theorem X13_second_revision_skips_the_read_without_hash
  (input : GitRewordInput) (context : LogicContext) (t : string) (w : W)
  (Hhash : Js.truthy (commitHash input) = false)
  (Hsan : HeadOnly.sanitizedTarget sanitizePath input context = inr t) :
  let r := run env (HeadOnly.rewordGitCommit sanitizePath input context) w in
  head (commands (trace r)) = Some (amendCommand t (sanitizeMessage (newMessage input)))
  /\ forall res, outcome r = Returned res ->
       success res = true /\ originalMessage res = Some "".
Proof.
  open_reword. fold (commitRefOf input). rewrite Hsan, Hhash.
  simpl. repeat answer; (split; [reflexivity|]); intros res [= <-]; auto.
Qed.

End TipFailures.

(** X10 outside a repository: both the message read and the amend are
    rejected; the caller gets [NOT_FOUND]. *)
Lemma X10_failed_amend_witness :
  let e := {| err_code := None; err_message := "Command failed";
              err_stderr :=
                Some "fatal: not a git repository (or any of the parent directories): .git";
              err_stdout := Some "" |} in
  let input := {| path := "/tmp/x"; commitHash := None; newMessage := "new msg" |} in
  let r := run Scripted.env
             (Guided.rewordGitCommit MiniGit.keep_path input (MiniGit.session None))
             (Scripted.mkWorld [Rejected e; Rejected e] None 0) in
  outcome r = Thrown (translateFailure "/tmp/x" e)
  /\ final r = Scripted.mkWorld [] None 0
  /\ commands (trace r)
     = [logMessageCommand "/tmp/x" "HEAD"; amendCommand "/tmp/x" (sanitizeMessage "new msg")].
Proof.
  intros e input.
  apply (X10_failed_amend_stops_the_reword MiniGit.keep_path Scripted.env input
           (MiniGit.session None) "/tmp/x"
           (Scripted.mkWorld [Rejected e; Rejected e] None 0)
           (Scripted.mkWorld [] None 0) e); vm_compute; reflexivity.
Defined.

(** X11 on a script: the amend resolves, the read back is rejected. *)
Lemma X11_failed_read_back_witness :
  let e := {| err_code := None; err_message := "Command failed";
              err_stderr := Some "fatal: unable to read tree"; err_stdout := Some "" |} in
  let input := {| path := "/repo"; commitHash := None; newMessage := "new msg" |} in
  let r := run Scripted.env
             (Guided.rewordGitCommit MiniGit.keep_path input (MiniGit.session None))
             (Scripted.mkWorld [Resolved "wip" ""; Resolved "[main 2b] new msg" ""; Rejected e]
                None 0) in
  outcome r = Thrown (translateFailure "/repo" e)
  /\ final r = Scripted.mkWorld [] None 0
  /\ commands (trace r)
     = [ logMessageCommand "/repo" "HEAD";
         amendCommand "/repo" (sanitizeMessage "new msg");
         confirmCommand "/repo" ].
Proof.
  intros e input.
  apply (X11_failed_read_back_after_amend MiniGit.keep_path Scripted.env input
           (MiniGit.session None) "/repo"
           (Scripted.mkWorld [Resolved "wip" ""; Resolved "[main 2b] new msg" ""; Rejected e]
              None 0)
           (Scripted.mkWorld [Rejected e] None 0)
           (Scripted.mkWorld [] None 0)
           "[main 2b] new msg" "" e); vm_compute; reflexivity.
Defined.

(** X12 on a script: the tip's message ends in a no-break space and a
    line break; both are trimmed away. *)
Lemma X12_original_message_witness :
  let input := {| path := "/repo"; commitHash := None; newMessage := "new msg" |} in
  let read := "nbsp" +:+ nbsp +:+ Js.nl in
  originalMessage
    {| success := true;
       message := "Commit message reworded successfully.";
       originalMessage := Some "nbsp";
       newMessage' := Some "new msg";
       hash := Some "2b";
       rebaseInstructions := None |}
  = Some (Js.trim read)
  /\ Js.trim read = "nbsp".
Proof.
  intros input read. split; [|vm_compute; reflexivity].
  apply (X12_original_message_is_the_trimmed_read MiniGit.keep_path Scripted.env input
           (MiniGit.session None) "/repo"
           (Scripted.mkWorld
              [ Resolved read ""; Resolved "[main 2b] new msg" "";
                Resolved ("2b" +:+ Js.nl +:+ "new msg" +:+ Js.nl) "" ] None 0)
           (Scripted.mkWorld
              [ Resolved "[main 2b] new msg" "";
                Resolved ("2b" +:+ Js.nl +:+ "new msg" +:+ Js.nl) "" ] None 0)
           read ""); vm_compute; reflexivity.
Defined.

(** X13 on a concrete repository. *)
Lemma X13_second_revision_witness :
  let input := {| path := "/repo"; commitHash := None; newMessage := "new msg" |} in
  let r := run MiniGit.env
             (HeadOnly.rewordGitCommit MiniGit.keep_path input (MiniGit.session None))
             MiniGit.two_commits in
  head (commands (trace r)) = Some (amendCommand "/repo" (sanitizeMessage "new msg"))
  /\ forall res, outcome r = Returned res ->
       success res = true /\ originalMessage res = Some "".
Proof.
  intros input.
  apply (X13_second_revision_skips_the_read_without_hash MiniGit.keep_path MiniGit.env
           input (MiniGit.session None) "/repo" MiniGit.two_commits);
    vm_compute; reflexivity.
Defined.

(** ** Reading the tip back (part_000, lines 158-180) *)

(** X14: the output of the read back is taken apart at its first line
    break.  A hash line of visible ASCII characters followed by a body
    gives the hash and the body without its trailing white space (ASCII
    or Unicode), inner line breaks and blank lines kept; such a hash
    line alone gives the hash and the empty message. *)
Theorem X14_read_back_is_split_at_the_first_line
  (h body : string)
  (Hne : Js.is_empty h = false) (Hword : ascii_word h = true) :
  parseConfirmation (h +:+ Js.nl +:+ body) = (h, Js.trimEnd body)
  /\ parseConfirmation h = (h, "").
Proof.
  split; [now apply parseConfirmation_reads_back|].
  unfold parseConfirmation, Js.trim.
  assert (Js.trimStart h = h) as ->.
  { destruct h as [|c h]; [discriminate|].
    simpl in Hword. apply andb_prop in Hword as [Hc _].
    now apply trimStart_word_char. }
  pose proof (trimEnd_word_app h "" Hword) as E.
  rewrite append_empty_r in E. rewrite E. simpl. rewrite append_empty_r.
  pose proof (split_word_app h "" Hword) as S.
  rewrite append_empty_r in S. rewrite S. simpl. now rewrite append_empty_r.
Qed.

Lemma X14_read_back_witness :
  parseConfirmation
    ("a1b2c3d4" +:+ Js.nl +:+ ("feat: add login" +:+ Js.nl +:+ Js.nl
                               +:+ "Adds the login form." +:+ nbsp +:+ Js.nl))
  = ("a1b2c3d4",
     "feat: add login" +:+ Js.nl +:+ Js.nl +:+ "Adds the login form.")
  /\ parseConfirmation "a1b2c3d4" = ("a1b2c3d4", "").
Proof.
  destruct (X14_read_back_is_split_at_the_first_line "a1b2c3d4"
              ("feat: add login" +:+ Js.nl +:+ Js.nl
                 +:+ "Adds the login form." +:+ nbsp +:+ Js.nl)
              eq_refl eq_refl) as [H1 H2].
  split; [|exact H2].
  rewrite H1. vm_compute. reflexivity.
Defined.

Section TipSuccess.

Variable sanitizePath : string -> option PathSanitizeOptions -> JsError + string.
Context {W : Type} (env : Env W).

(** X15: rewording the tip reports what git prints, not what was asked
    for.  When the amend resolves and the read back prints a hash line
    of visible ASCII characters and a body, the first revision returns
    [success = true] with that hash, that body without its trailing
    white space (ASCII or Unicode) as [newMessage], and the trimmed
    output of the first read, or the empty string when that read
    failed, as [originalMessage]. *)
Theorem X15_tip_reword_reports_the_read_back
  (input : GitRewordInput) (context : LogicContext) (t : string)
  (w w2 w3 : W) (out err errc h body : string)
  (Href : commitRefOf input = "HEAD")
  (Hsan : Guided.sanitizedTarget sanitizePath input context = inr t)
  (Hamend : env_exec env (amendCommand t (sanitizeMessage (newMessage input)))
              (env_exec env (logMessageCommand t "HEAD") w).2
            = (Resolved out err, w2))
  (Hconfirm : env_exec env (confirmCommand t) w2
              = (Resolved (h +:+ Js.nl +:+ body) errc, w3))
  (Hne : Js.is_empty h = false) (Hword : ascii_word h = true) :
  outcome (run env (Guided.rewordGitCommit sanitizePath input context) w)
  = Returned
      {| success := true;
         message := "Commit message reworded successfully.";
         originalMessage :=
           Some match (env_exec env (logMessageCommand t "HEAD") w).1 with
                | Resolved o _ => Js.trim o
                | Rejected _ => ""
                end;
         newMessage' := Some (Js.trimEnd body);
         hash := Some h;
         rebaseInstructions := None |}.
Proof.
  open_reword. fold (commitRefOf input). rewrite Hsan, Href.
  destruct (decide ("HEAD" = "HEAD")) as [_|Hneq]; [|contradiction].
  simpl.
  destruct (env_exec env (logMessageCommand t "HEAD") w) as [[out0 err0|e0] w0];
    simpl in *; rewrite Hamend; simpl;
    destruct (Js.is_empty err); simpl; rewrite Hconfirm; simpl;
    rewrite (parseConfirmation_reads_back h body Hne Hword); reflexivity.
Qed.

End TipSuccess.

(** X15 on a concrete repository: one commit [wip], reworded. *)
Lemma X15_tip_reword_witness :
  let input := {| path := "/repo"; commitHash := None;
                  newMessage := "feat: initial implementation" |} in
  outcome (run MiniGit.env
             (Guided.rewordGitCommit MiniGit.keep_path input (MiniGit.session None))
             MiniGit.two_commits)
  = Returned
      {| success := true;
         message := "Commit message reworded successfully.";
         originalMessage := Some "wip";
         newMessage' := Some "feat: initial implementation";
         hash := Some "2b";
         rebaseInstructions := None |}.
Proof.
  intros input.
  pose proof (X15_tip_reword_reports_the_read_back MiniGit.keep_path MiniGit.env input
                (MiniGit.session None) "/repo" MiniGit.two_commits
                (MiniGit.amended "feat: initial implementation" MiniGit.two_commits)
                (MiniGit.amended "feat: initial implementation" MiniGit.two_commits)
                ("[main] feat: initial implementation" +:+ Js.nl) "" ""
                "2b" ("feat: initial implementation" +:+ Js.nl)) as H.
  rewrite H; [vm_compute; reflexivity | vm_compute; reflexivity ..].
Defined.

(** ** The registered handlers (part_001, lines 66-120;
       gitStash/registration.ts, lines 80-148) *)

Section SequencedRuns.

Context {W : Type} (env : Env W).

(** The run of [p] followed by [f]. *)
Lemma run_bind {A B} (p : Prog A) (f : A -> Prog B) (w : W) :
  run env (bind p f) w =
    match outcome (run env p w) with
    | Returned a =>
        let rf := run env (f a) (final (run env p w)) in
        mkRun (outcome rf) (final rf) (trace (run env p w) ++ trace rf)
    | Thrown e => mkRun (Thrown e) (final (run env p w)) (trace (run env p w))
    end.
Proof.
  revert w. induction p as [| |c k IH|g d k IH|g k IH|k IH|l m k IH];
    intros w; simpl.
  - now destruct (run env (f a) w).
  - reflexivity.
  - destruct (env_exec env c w) as [r w']. simpl. rewrite IH.
    destruct (outcome (run env (k r) w')); reflexivity.
  - destruct (env_writeFile env g d w) as [r w']. simpl. rewrite IH.
    destruct (outcome (run env (k r) w')); reflexivity.
  - destruct (env_unlink env g w) as [r w']. simpl. rewrite IH.
    destruct (outcome (run env (k r) w')); reflexivity.
  - destruct (env_now env w) as [r w']. simpl. rewrite IH.
    destruct (outcome (run env (k r) w')); reflexivity.
  - rewrite IH. destruct (outcome (run env k w)); reflexivity.
Qed.

(** The run of [p] under a handler. *)
Lemma run_try_catch {A} (p : Prog A) (h : JsError -> Prog A) (w : W) :
  run env (try_catch p h) w =
    match outcome (run env p w) with
    | Returned a => run env p w
    | Thrown e =>
        let rh := run env (h e) (final (run env p w)) in
        mkRun (outcome rh) (final rh) (trace (run env p w) ++ trace rh)
    end.
Proof.
  revert w. induction p as [| |c k IH|g d k IH|g k IH|k IH|l m k IH];
    intros w; simpl.
  - reflexivity.
  - now destruct (run env (h error) w).
  - destruct (env_exec env c w) as [r w']. simpl. rewrite IH.
    destruct (outcome (run env (k r) w')); reflexivity.
  - destruct (env_writeFile env g d w) as [r w']. simpl. rewrite IH.
    destruct (outcome (run env (k r) w')); reflexivity.
  - destruct (env_unlink env g w) as [r w']. simpl. rewrite IH.
    destruct (outcome (run env (k r) w')); reflexivity.
  - destruct (env_now env w) as [r w']. simpl. rewrite IH.
    destruct (outcome (run env (k r) w')); reflexivity.
  - rewrite IH. destruct (outcome (run env k w)); reflexivity.
Qed.

Lemma commands_app (evs evs' : list Event) :
  commands (evs ++ evs') = (commands evs ++ commands evs')%list.
Proof. unfold commands. apply omap_app. Qed.

End SequencedRuns.

Section Handlers.

Context {W RequestContext : Type} (env : Env W).
Variable createRequestContext : string -> RequestContext -> RequestContext.
Variable handleError : JsError -> JsError.

(** X16: the [git_reword] handler calls the logic once, with a context
    whose working directory is the one the state accessors give for the
    request's session.  A result the logic returns, successful or not,
    is handed back as one JSON text content; an error the logic throws
    is rethrown through [ErrorHandler.handleError].  The handler makes
    no git call of its own and leaves the environment as the logic
    left it. *)
Theorem X16_reword_handler_wraps_the_logic
  (rewordGitCommit : GitRewordInput -> LogicContext -> Prog GitRewordResult)
  (stringifyReword : GitRewordResult -> string)
  (getWd : option string -> option string) (getSid : RequestContext -> option string)
  (validatedArgs : GitRewordInput) (callContext : RequestContext) (w : W) :
  let requestContext := createRequestContext "tool:git_reword" callContext in
  let logicContext :=
    {| sessionId := getSid requestContext;
       getWorkingDirectory := fun _ => getWd (getSid requestContext) |} in
  let logic := run env (rewordGitCommit validatedArgs logicContext) w in
  let r := run env
             (gitRewordHandler createRequestContext handleError rewordGitCommit
                stringifyReword getWd getSid validatedArgs callContext) w in
  outcome r =
    match outcome logic with
    | Returned res => Returned {| content := [jsonContent (stringifyReword res)] |}
    | Thrown e => Thrown (handleError e)
    end
  /\ final r = final logic
  /\ commands (trace r) = commands (trace logic).
Proof.
  intros requestContext logicContext logic r. subst r.
  unfold gitRewordHandler, tryCatch, logger, mbind, mret, Prog_bind, Prog_ret.
  fold requestContext. change (logicContextFor getWd getSid requestContext) with logicContext.
  cbn [bind run logged outcome final trace].
  rewrite run_try_catch, run_bind. fold logic.
  destruct (outcome logic) as [res|e]; simpl.
  - destruct (success res); simpl; rewrite !commands_app; simpl;
      rewrite app_nil_r; auto.
  - rewrite !commands_app. simpl. rewrite app_nil_r. auto.
Qed.

(** X17: the [git_stash] handler does the same for the stash logic: a
    returned result, whatever its [success] flag, comes back as one JSON
    text content, a thrown error is rethrown through
    [ErrorHandler.handleError], and the handler adds no git call. *)
Theorem X17_stash_handler_wraps_the_logic
  (gitStashLogic : GitStashInput -> LogicContext -> Prog GitStashResult)
  (stringifyStash : GitStashResult -> string)
  (getWd : option string -> option string) (getSid : RequestContext -> option string)
  (toolInput : GitStashInput) (callContext : RequestContext) (w : W) :
  let requestContext :=
    createRequestContext ("tool:git_stash:" +:+ modeName (mode toolInput)) callContext in
  let logicContext :=
    {| sessionId := getSid requestContext;
       getWorkingDirectory := fun _ => getWd (getSid requestContext) |} in
  let logic := run env (gitStashLogic toolInput logicContext) w in
  let r := run env
             (gitStashHandler createRequestContext handleError gitStashLogic
                stringifyStash getWd getSid toolInput callContext) w in
  outcome r =
    match outcome logic with
    | Returned res => Returned {| content := [jsonContent (stringifyStash res)] |}
    | Thrown e => Thrown (handleError e)
    end
  /\ final r = final logic
  /\ commands (trace r) = commands (trace logic).
Proof.
  intros requestContext logicContext logic r. subst r.
  unfold gitStashHandler, tryCatch, logger, mbind, mret, Prog_bind, Prog_ret.
  change (logicContextFor getWd getSid
            (createRequestContext
               ("tool:" +:+ GitStash_TOOL_NAME +:+ ":" +:+ modeName (mode toolInput))
               callContext)) with logicContext.
  cbn [bind run logged outcome final trace].
  rewrite run_try_catch, run_bind. fold logic.
  destruct (outcome logic) as [res|e]; simpl.
  - destruct (stash_success res); simpl; rewrite !commands_app; simpl;
      rewrite app_nil_r; auto.
  - rewrite !commands_app. simpl. rewrite app_nil_r. auto.
Qed.

End Handlers.

(** ** The two revisions side by side *)

(** X18: when the caller names the tip by the hash [HEAD] and the path
    sanitizer answers alike with and without its options, the two
    revisions run alike: same calls, same final state, same outcome. *)
Theorem X18_revisions_agree_on_explicit_head
  (sanitizePath : string -> option PathSanitizeOptions -> JsError + string)
  {W : Type} (env : Env W)
  (input : GitRewordInput) (context : LogicContext) (w : W)
  (Hhash : commitHash input = Some "HEAD")
  (Hsan : Guided.sanitizedTarget sanitizePath input context
          = HeadOnly.sanitizedTarget sanitizePath input context) :
  run env (Guided.rewordGitCommit sanitizePath input context) w
  = run env (HeadOnly.rewordGitCommit sanitizePath input context) w.
Proof.
  unfold Guided.rewordGitCommit, HeadOnly.rewordGitCommit. rewrite Hsan.
  destruct (HeadOnly.sanitizedTarget sanitizePath input context) as [e|t];
    [reflexivity|].
  unfold Guided.rewordBody, HeadOnly.rewordBody. rewrite Hhash.
  reflexivity.
Qed.

Lemma X18_revisions_agree_witness :
  let input := {| path := "/repo"; commitHash := Some "HEAD"; newMessage := "new msg" |} in
  run MiniGit.env
    (Guided.rewordGitCommit MiniGit.keep_path input (MiniGit.session None))
    MiniGit.two_commits
  = run MiniGit.env
      (HeadOnly.rewordGitCommit MiniGit.keep_path input (MiniGit.session None))
      MiniGit.two_commits.
Proof.
  intros input.
  exact (X18_revisions_agree_on_explicit_head MiniGit.keep_path MiniGit.env input
           (MiniGit.session None) MiniGit.two_commits eq_refl eq_refl).
Defined.

(** ** On the way to the advice (part_000, lines 82-147) *)

Section Advice.

Variable sanitizePath : string -> option PathSanitizeOptions -> JsError + string.
Context {W : Type} (env : Env W).

(** X19: when the parent cannot be resolved, the first revision throws
    the translation of its own parent-not-found error, whose text names
    the reference; the error git gave for the failed resolution is not
    part of what is thrown.  No file is touched and the clock is not
    read. *)
Theorem X19_unresolved_parent
  (input : GitRewordInput) (context : LogicContext) (t : string)
  (w w1 : W) (e : JsError)
  (Href : commitRefOf input <> "HEAD")
  (Hsan : Guided.sanitizedTarget sanitizePath input context = inr t)
  (Hparent : env_exec env (revParseParentCommand t (commitRefOf input))
               (env_exec env (logMessageCommand t (commitRefOf input)) w).2
             = (Rejected e, w1)) :
  let r := run env (Guided.rewordGitCommit sanitizePath input context) w in
  outcome r = Thrown (translateFailure t (parentNotFound (commitRefOf input)))
  /\ errorMessageOf (parentNotFound (commitRefOf input))
     = "Could not find parent commit for " +:+ commitRefOf input
         +:+ ". This might be the root commit or an invalid commit hash."
  /\ final r = w1
  /\ fileEvents (trace r) = []
  /\ EvDateNow ∉ trace r.
Proof.
  open_reword. fold (commitRefOf input). rewrite Hsan.
  destruct (decide (commitRefOf input = "HEAD")) as [Heq|_]; [contradiction|].
  simpl.
  destruct (env_exec env (logMessageCommand t (commitRefOf input)) w)
    as [[out0 err0|e0] w0]; simpl in *; rewrite Hparent; simpl;
    repeat split; auto;
    intros Hin; apply list_elem_of_In in Hin; simpl in Hin;
    repeat (destruct Hin as [Hin|Hin]; [discriminate Hin|]); exact Hin.
Qed.

(** X20: when the parent resolves and writing the temporary message
    file fails, the first revision still unlinks that file, then throws
    the translation of the write error; no advice is returned. *)
Theorem X20_failed_write_is_cleaned_up_and_thrown
  (input : GitRewordInput) (context : LogicContext) (t : string)
  (w w1 : W) (out err : string) (e : JsError)
  (Href : commitRefOf input <> "HEAD")
  (Hsan : Guided.sanitizedTarget sanitizePath input context = inr t)
  (Hparent : env_exec env (revParseParentCommand t (commitRefOf input))
               (env_exec env (logMessageCommand t (commitRefOf input)) w).2
             = (Resolved out err, w1))
  (Hwrite : (env_writeFile env (tempMessageFile env t w1)
               (sanitizeMessage (newMessage input)) (env_now env w1).2).1 = Some e) :
  let r := run env (Guided.rewordGitCommit sanitizePath input context) w in
  outcome r = Thrown (translateFailure t e)
  /\ fileEvents (trace r)
     = [ EvWriteFile (tempMessageFile env t w1) (sanitizeMessage (newMessage input));
         EvUnlink (tempMessageFile env t w1) ].
Proof.
  revert Hwrite. unfold tempMessageFile.
  open_reword. fold (commitRefOf input). rewrite Hsan.
  destruct (decide (commitRefOf input = "HEAD")) as [Heq|_]; [contradiction|].
  simpl.
  destruct (env_exec env (logMessageCommand t (commitRefOf input)) w)
    as [[out0 err0|e0] w0]; simpl in *; rewrite Hparent; simpl;
    destruct (env_now env w1) as [clock w2]; simpl;
    destruct (env_writeFile env _ _ w2) as [wr w3]; simpl;
    intros ->; simpl; destruct (env_unlink env _ w3) as [ur w4]; simpl; auto.
Qed.

(** X21: the advice of the first revision tells to rebase onto the
    parent that the resolution printed, trimmed, in the directory the
    sanitizer returned: both the numbered procedure and the one-liner
    contain [git -C DQ<targetPath>DQ rebase -i <parent>] (DQ the double
    quote). *)
Theorem X21_advice_rebases_onto_the_resolved_parent
  (input : GitRewordInput) (context : LogicContext) (t : string)
  (w w1 : W) (out err : string)
  (Href : commitRefOf input <> "HEAD")
  (Hsan : Guided.sanitizedTarget sanitizePath input context = inr t)
  (Hparent : env_exec env (revParseParentCommand t (commitRefOf input))
               (env_exec env (logMessageCommand t (commitRefOf input)) w).2
             = (Resolved out err, w1))
  (Hwrite : (env_writeFile env (tempMessageFile env t w1)
               (sanitizeMessage (newMessage input)) (env_now env w1).2).1 = None) :
  exists res text,
    outcome (run env (Guided.rewordGitCommit sanitizePath input context) w)
      = Returned res
    /\ rebaseInstructions res = Some text
    /\ Js.includes text
         ("1. Start interactive rebase: " +:+ git_C t +:+ " rebase -i " +:+ Js.trim out)
       = true
    /\ Js.includes text
         ("' > /tmp/new_message && " +:+ git_C t +:+ " rebase -i " +:+ Js.trim out
            +:+ " --exec 'git commit --amend -F /tmp/new_message'") = true
    /\ message res
       = "Rewording commit " +:+ commitRefOf input +:+ " requires an interactive rebase.".
Proof.
  destruct (guided_advisory_run sanitizePath env input context t w w1 out err
              Href Hsan Hparent Hwrite) as [original Hrun].
  eexists. eexists. split; [exact Hrun|].
  cbn [rebaseInstructions message].
  split; [reflexivity|]. split; [|split; [|reflexivity]].
  - unfold Guided.rebaseInstructionsText. cbn [Js.join]. find_part.
  - unfold Guided.rebaseInstructionsText. cbn [Js.join]. find_part.
Qed.

End Advice.

(** X19 on a concrete repository: the root commit [a1] has no parent. *)
Lemma X19_unresolved_parent_witness :
  let input := {| path := "/repo"; commitHash := Some "a1"; newMessage := "new msg" |} in
  let r := run MiniGit.env
             (Guided.rewordGitCommit MiniGit.keep_path input (MiniGit.session None))
             MiniGit.two_commits in
  outcome r = Thrown (translateFailure "/repo" (parentNotFound "a1"))
  /\ errorMessageOf (parentNotFound "a1")
     = "Could not find parent commit for " +:+ "a1"
         +:+ ". This might be the root commit or an invalid commit hash."
  /\ final r = MiniGit.two_commits
  /\ fileEvents (trace r) = []
  /\ EvDateNow ∉ trace r.
Proof.
  intros input.
  eapply (X19_unresolved_parent MiniGit.keep_path MiniGit.env input
            (MiniGit.session None) "/repo" MiniGit.two_commits MiniGit.two_commits).
  - vm_compute. discriminate.
  - reflexivity.
  - vm_compute. reflexivity.
Defined.

(** X20 in a directory that cannot be written to. *)
Lemma X20_failed_write_witness :
  let input := {| path := "/repo"; commitHash := Some "b2"; newMessage := "new msg" |} in
  let e := PlainError "EACCES: permission denied, open '/repo/.git-reword-message-1700'" in
  let r := run MiniGit.env
             (Guided.rewordGitCommit MiniGit.keep_path input (MiniGit.session None))
             MiniGit.read_only_repo in
  outcome r = Thrown (translateFailure "/repo" e)
  /\ fileEvents (trace r)
     = [ EvWriteFile (tempMessageFile MiniGit.env "/repo" MiniGit.read_only_repo)
           (sanitizeMessage "new msg");
         EvUnlink (tempMessageFile MiniGit.env "/repo" MiniGit.read_only_repo) ].
Proof.
  intros input e.
  apply (X20_failed_write_is_cleaned_up_and_thrown MiniGit.keep_path MiniGit.env input
           (MiniGit.session None) "/repo" MiniGit.read_only_repo MiniGit.read_only_repo
           ("a1" +:+ Js.nl) "" e).
  - vm_compute. discriminate.
  - reflexivity.
  - vm_compute. reflexivity.
  - vm_compute. reflexivity.
Defined.

(** X21 on a concrete repository: the advice for [b2] rebases onto [a1]. *)
Lemma X21_advice_witness :
  let input := {| path := "/repo"; commitHash := Some "b2"; newMessage := "new msg" |} in
  exists res text,
    outcome (run MiniGit.env
               (Guided.rewordGitCommit MiniGit.keep_path input (MiniGit.session None))
               MiniGit.two_commits) = Returned res
    /\ rebaseInstructions res = Some text
    /\ Js.includes text
         ("1. Start interactive rebase: " +:+ git_C "/repo" +:+ " rebase -i "
            +:+ Js.trim ("a1" +:+ Js.nl)) = true
    /\ Js.includes text
         ("' > /tmp/new_message && " +:+ git_C "/repo" +:+ " rebase -i "
            +:+ Js.trim ("a1" +:+ Js.nl)
            +:+ " --exec 'git commit --amend -F /tmp/new_message'") = true
    /\ message res
       = "Rewording commit " +:+ commitRefOf input +:+ " requires an interactive rebase.".
Proof.
  intros input.
  apply (X21_advice_rebases_onto_the_resolved_parent MiniGit.keep_path MiniGit.env
           input (MiniGit.session None) "/repo" MiniGit.two_commits MiniGit.two_commits
           ("a1" +:+ Js.nl) "").
  - vm_compute. discriminate.
  - reflexivity.
  - vm_compute. reflexivity.
  - vm_compute. reflexivity.
Defined.

(** ** The text that is classified (part_000, lines 191-211) *)

(** X22: the failure text is the first non-empty one of stderr, stdout
    and the error's message.  So a non-empty stderr alone decides the
    translation, whatever stdout and the message say; an empty stderr
    is passed over in favour of stdout; and when all three are empty the
    error thrown is [INTERNAL_ERROR] with nothing after the fixed
    prefix. *)
Theorem X22_first_non_empty_text_decides
  (targetPath : string) (e e' : JsError) (s : string) :
  (err_stderr e = Some s -> err_stderr e' = Some s -> Js.is_empty s = false ->
   translateFailure targetPath e = translateFailure targetPath e')
  /\ (Js.truthy (err_stderr e) = false -> err_stdout e = Some s ->
      Js.is_empty s = false ->
      errorMessageOf e = s)
  /\ (Js.truthy (err_stderr e) = false -> Js.truthy (err_stdout e) = false ->
      errorMessageOf e = err_message e)
  /\ (Js.truthy (err_stderr e) = false -> Js.truthy (err_stdout e) = false ->
      err_message e = "" ->
      translateFailure targetPath e
      = McpError INTERNAL_ERROR "Failed to reword commit. Error: ").
Proof.
  repeat split.
  - intros H H' Hs. unfold translateFailure, errorMessageOf, Js.or.
    rewrite H, H', Hs. reflexivity.
  - intros H Ho Hs. rewrite errorMessageOf_priority, H.
    unfold Js.truthy. rewrite Ho, Hs. reflexivity.
  - intros H Ho. rewrite errorMessageOf_priority, H, Ho. reflexivity.
  - intros H Ho Hm. unfold translateFailure.
    rewrite errorMessageOf_priority, H, Ho, Hm. reflexivity.
Qed.

Lemma X22_first_non_empty_text_witness :
  let silent := {| err_code := None; err_message := "";
                   err_stderr := Some ""; err_stdout := None |} in
  let on_stdout := {| err_code := None; err_message := "Command failed";
                      err_stderr := Some "";
                      err_stdout := Some "no changes added to commit" |} in
  let a := {| err_code := None; err_message := "Command failed: git";
              err_stderr := Some "fatal: not a git repository";
              err_stdout := Some "no changes" |} in
  let b := {| err_code := None; err_message := "";
              err_stderr := Some "fatal: not a git repository";
              err_stdout := None |} in
  translateFailure "/repo" a = translateFailure "/repo" b
  /\ errorMessageOf on_stdout = "no changes added to commit"
  /\ errorMessageOf silent = ""
  /\ translateFailure "/repo" silent
     = McpError INTERNAL_ERROR "Failed to reword commit. Error: ".
Proof.
  intros silent on_stdout a b.
  destruct (X22_first_non_empty_text_decides "/repo" a b "fatal: not a git repository")
    as (H1 & _).
  destruct (X22_first_non_empty_text_decides "/repo" on_stdout on_stdout
              "no changes added to commit") as (_ & H2 & _).
  destruct (X22_first_non_empty_text_decides "/repo" silent silent "")
    as (_ & _ & H3 & H4).
  split; [exact (H1 eq_refl eq_refl eq_refl)|].
  split; [exact (H2 eq_refl eq_refl eq_refl)|].
  split; [exact (H3 eq_refl eq_refl) | exact (H4 eq_refl eq_refl eq_refl)].
Defined.
